(** * EchoPay fraud-detection service: the scoring core of [main.py]

    A shallow embedding of [services/fraud-detection/src/main.py]:
    the rule-based scorer, the fallback risk-factor extraction, the
    cached-history lookup and the [analyze_transaction] handler, with
    Python's dynamically typed values, its exceptions and its binary64
    floats written out.  Logging and the Prometheus counters have no effect
    on what the handler returns and are left out. *)

From Stdlib Require Import ZArith QArith Floats.
From stdpp Require Import gmap strings.

Set Warnings "-inexact-float,-register-all".

(** ** Python values and exceptions *)

(** The values a JSON body or a [Dict[str, Any]] can hold. *)
Inductive pyval : Type :=
| VNone
| VBool (b : bool)
| VInt (n : Z)
| VFloat (f : float)
| VStr (s : string)
| VList (l : list pyval)
| VDict (d : gmap string pyval).

(** The exceptions the handler can meet.  [ServiceError] stands for whatever
    a collaborator (cache, model service, risk engine) raises. *)
Inductive exn : Type :=
| TypeError
| ServiceError (msg : string)
| HTTPException (status_code : Z) (detail : string).

(** A computation either returns or raises. *)
Inductive outcome (A : Type) : Type :=
| Ret (a : A)
| Raise (e : exn).
Arguments Ret {A} a.
Arguments Raise {A} e.

#[export] Instance outcome_ret : MRet outcome := fun _ a => Ret a.
#[export] Instance outcome_bind : MBind outcome := fun _ _ k m =>
  match m with
  | Ret a => k a
  | Raise e => Raise e
  end.

(** [try: body except Exception: handler]. *)
Definition try_except {A} (body : outcome A) (handler : exn -> outcome A) : outcome A :=
  match body with
  | Ret a => Ret a
  | Raise e => handler e
  end.

Definition returns {A} (m : outcome A) : bool :=
  match m with Ret _ => true | Raise _ => false end.

(** ** Numbers

    Python orders [bool], [int] and [float] operands by their exact
    mathematical value; a NaN is unordered with everything.  [xnum] is that
    value. *)
Inductive xnum : Type :=
| XNaN
| XNegInf
| XFin (q : Q)
| XPosInf.

(** The value of a binary64 float, read off its sign, mantissa and exponent. *)
Definition float_val (f : float) : xnum :=
  match Prim2SF f with
  | S754_zero _ => XFin 0
  | S754_infinity s => if s then XNegInf else XPosInf
  | S754_nan => XNaN
  | S754_finite s m e =>
      XFin ((if s then inject_Z (Z.neg m) else inject_Z (Z.pos m)) * Qpower 2 e)
  end.

Definition xlt (x y : xnum) : bool :=
  match x, y with
  | XNaN, _ | _, XNaN => false
  | _, XNegInf => false
  | XNegInf, _ => true
  | XPosInf, _ => false
  | XFin _, XPosInf => true
  | XFin p, XFin q => match Qcompare p q with Lt => true | _ => false end
  end.

Definition py_num (v : pyval) : option xnum :=
  match v with
  | VBool b => Some (XFin (if b then 1 else 0))
  | VInt n => Some (XFin (inject_Z n))
  | VFloat f => Some (float_val f)
  | _ => None
  end.

(** [a < b].  Every comparison of the handler has a numeric literal on one
    side, so an operand that is not a number raises [TypeError]. *)
Definition py_lt (a b : pyval) : outcome bool :=
  match py_num a, py_num b with
  | Some x, Some y => Ret (xlt x y)
  | _, _ => Raise TypeError
  end.

(** [a > b]. *)
Definition py_gt (a b : pyval) : outcome bool := py_lt b a.

(** Truth value of an object in an [if]. *)
Definition truthy (v : pyval) : bool :=
  match v with
  | VNone => false
  | VBool b => b
  | VInt n => negb (n =? 0)%Z
  | VFloat f => negb (f =? 0)%float
  | VStr s => match s with EmptyString => false | _ => true end
  | VList l => match l with [] => false | _ => true end
  | VDict d => negb (Nat.eqb (size d) 0)
  end.

(** [d.get(key, dflt)]. *)
Definition dict_get {V} (d : gmap string V) (key : string) (dflt : V) : V :=
  default dflt (d !! key).

(** [min(a, b)] on floats: the first argument unless the second is smaller. *)
Definition py_min (a b : float) : float :=
  if (b <? a)%float then b else a.

(** ** The rule-based scorer *)

(** The additive point system of [_calculate_rule_based_score], up to (not
    including) the final clamp. *)
Definition rule_based_raw_score
    (transaction_data transaction_context : gmap string pyval) : outcome float :=
  let score := 0.0%float in
  let amount := dict_get transaction_data "amount" (VFloat 0.0) in
  (* High amount transactions *)
  high ← py_gt amount (VInt 10000);
  score ← (if high : bool then mret (score + 0.3)%float
           else mid ← py_gt amount (VInt 1000);
                mret (if mid : bool then (score + 0.1)%float else score));
  (* Very small amounts: 0 < amount < 1 *)
  pos ← py_lt (VInt 0) amount;
  micro ← (if pos : bool then py_lt amount (VInt 1) else mret false);
  let score := if micro : bool then (score + 0.2)%float else score in
  (* High velocity *)
  let recent_tx := dict_get transaction_context "recent_transactions_1h" (VInt 0) in
  fast ← py_gt recent_tx (VInt 10);
  score ← (if fast : bool then mret (score + 0.4)%float
           else brisk ← py_gt recent_tx (VInt 5);
                mret (if brisk : bool then (score + 0.2)%float else score));
  (* New location *)
  let score :=
    if truthy (dict_get transaction_context "is_new_location" (VBool false))
    then (score + 0.2)%float else score in
  (* New user with high activity *)
  let user_age := dict_get transaction_context "user_age_days" (VInt 365) in
  young ← py_lt user_age (VInt 7);
  fresh ← (if young : bool then py_gt amount (VInt 1000) else mret false);
  let score := if fresh : bool then (score + 0.3)%float else score in
  mret score.

Definition _calculate_rule_based_score
    (transaction_data transaction_context : gmap string pyval) : outcome float :=
  score ← rule_based_raw_score transaction_data transaction_context;
  mret (py_min 1.0 score).

(** ** Risk factors when the risk engine is not available *)

Definition _extract_simple_risk_factors
    (component_scores : gmap string float)
    (transaction_context : gmap string pyval) : outcome (list string) :=
  let factors : list string := [] in
  let factors := if (0.7 <? dict_get component_scores "behavioral" 0)%float
                 then factors ++ ["unusual_behavior"] else factors in
  let factors := if (0.6 <? dict_get component_scores "graph" 0)%float
                 then factors ++ ["suspicious_network"] else factors in
  let factors := if (0.8 <? dict_get component_scores "anomaly" 0)%float
                 then factors ++ ["transaction_anomaly"] else factors in
  let factors := if (0.5 <? dict_get component_scores "rule_based" 0)%float
                 then factors ++ ["rule_violation"] else factors in
  let amount := dict_get transaction_context "amount" (VFloat 0.0) in
  high ← py_gt amount (VInt 10000);
  factors ← (if high : bool then mret (factors ++ ["high_amount"])
             else small ← py_lt amount (VInt 1);
                  mret (if small : bool then factors ++ ["micro_amount"] else factors));
  fast ← py_gt (dict_get transaction_context "recent_transactions_1h" (VInt 0)) (VInt 10);
  let factors := if fast : bool then factors ++ ["high_velocity"] else factors in
  let factors :=
    if truthy (dict_get transaction_context "is_new_location" (VBool false))
    then factors ++ ["new_location"] else factors in
  mret factors.

(** ** The request, the response and the collaborators *)

Module TransactionAnalysisRequest.
Record t : Type := {
  transactionId : string;
  fromWallet : string;
  toWallet : string;
  amount : float;
  currency : string;
  timestamp : string;
  userContext : gmap string pyval
}.
End TransactionAnalysisRequest.

(** [round(x, 3)].  The response keeps the float that is rounded; which
    three-decimal float the builtin picks for it is not modelled. *)
Inductive rounded : Type := round3 (x : float).

Module RiskScore.
Record t : Type := {
  transactionId : string;
  overallScore : rounded;
  behavioralScore : rounded;
  graphScore : rounded;
  anomalyScore : rounded;
  riskFactors : list string;
  timestamp : string
}.
End RiskScore.

(** What the handler reads of the risk engine's [RiskAssessment]. *)
Module RiskAssessment.
Record t : Type := {
  overall_risk_score : float;
  risk_factors : list string;
  recommended_action : string;
  confidence : float;
  processing_time_ms : float
}.
End RiskAssessment.

(** The module's globals after start-up, each [None] when it could not be
    set up, together with the JSON decoder and the clock.  A collaborator is
    known by its interface only: a call returns a value or raises. *)
Record world : Type := {
  (* redis_client.get(key): the stored string, or None for an absent key *)
  redis_client : option (string -> outcome (option string));
  (* behavioral_service.analyze_user_behavior(user_id, transaction_data) *)
  behavioral_service : option (string -> gmap string pyval -> outcome float);
  (* graph_service.analyze_transaction_network(user_id, transaction_data) *)
  graph_service : option (string -> gmap string pyval -> outcome float);
  (* anomaly_service.ensemble_detector.predict_anomaly_score(transaction_data, user_history) *)
  anomaly_service : option (gmap string pyval -> pyval -> outcome (float * gmap string float));
  (* risk_engine.assess_transaction_risk(transaction_id, component_scores, transaction_context) *)
  risk_engine :
    option (string -> gmap string float -> gmap string pyval -> outcome RiskAssessment.t);
  (* json.loads *)
  json_loads : string -> outcome pyval;
  (* datetime.utcnow().isoformat() *)
  utcnow : string
}.

(** ** The cached history *)

Definition _get_user_transaction_history (w : world) (user_id : string) : outcome pyval :=
  returned ←
    match redis_client w with
    | Some client =>
        try_except
          ((* Try to get cached history *)
           cached_history ← client ("user_history:" +:+ user_id);
           match cached_history with
           | Some payload =>
               if truthy (VStr payload)
               then history ← json_loads w payload; mret (Some history)
               else mret None
           | None => mret None
           end)
          (fun _ => mret None)
    | None => mret None
    end;
  (* Return empty list if no history available *)
  mret (default (VList []) returned).

(** ** The handler *)

Definition transaction_data_of (request : TransactionAnalysisRequest.t) : gmap string pyval :=
  {[ "transactionId" := VStr (TransactionAnalysisRequest.transactionId request);
     "amount" := VFloat (TransactionAnalysisRequest.amount request);
     "timestamp" := VStr (TransactionAnalysisRequest.timestamp request);
     "toWallet" := VStr (TransactionAnalysisRequest.toWallet request);
     "fromWallet" := VStr (TransactionAnalysisRequest.fromWallet request);
     "currency" := VStr (TransactionAnalysisRequest.currency request);
     "metadata" := VDict (TransactionAnalysisRequest.userContext request) ]}.

Definition transaction_context_of (request : TransactionAnalysisRequest.t) : gmap string pyval :=
  let userContext := TransactionAnalysisRequest.userContext request in
  {[ "amount" := VFloat (TransactionAnalysisRequest.amount request);
     "user_id" := VStr (TransactionAnalysisRequest.fromWallet request);
     "user_age_days" := dict_get userContext "user_age_days" (VInt 365);
     "recent_transactions_1h" := dict_get userContext "recent_transactions_1h" (VInt 0);
     "is_new_location" := dict_get userContext "is_new_location" (VBool false);
     "currency" := VStr (TransactionAnalysisRequest.currency request) ]}.

(** "Collect component scores from all ML models", then the rule-based
    score: lines 166 to 209 of the handler. *)
Definition collect_component_scores (w : world) (request : TransactionAnalysisRequest.t)
    : outcome (gmap string float) :=
  let user_id := TransactionAnalysisRequest.fromWallet request in
  let transaction_data := transaction_data_of request in
  let transaction_context := transaction_context_of request in
  let component_scores : gmap string float := ∅ in
  (* Behavioral analysis *)
  component_scores ←
    match behavioral_service w with
    | Some analyze_user_behavior =>
        try_except
          (behavioral_score ← analyze_user_behavior user_id transaction_data;
           mret (<["behavioral" := behavioral_score]> component_scores))
          (fun _ => mret (<["behavioral" := 0.5%float]> component_scores))
    | None => mret (<["behavioral" := 0.5%float]> component_scores)
    end;
  (* Graph analysis *)
  component_scores ←
    match graph_service w with
    | Some analyze_transaction_network =>
        try_except
          (graph_score ← analyze_transaction_network user_id transaction_data;
           mret (<["graph" := graph_score]> component_scores))
          (fun _ => mret (<["graph" := 0.1%float]> component_scores))
    | None => mret (<["graph" := 0.1%float]> component_scores)
    end;
  (* Anomaly detection *)
  component_scores ←
    match anomaly_service w with
    | Some predict_anomaly_score =>
        try_except
          (user_history ← _get_user_transaction_history w user_id;
           '(anomaly_score, _) ← predict_anomaly_score transaction_data user_history;
           mret (<["anomaly" := anomaly_score]> component_scores))
          (fun _ => mret (<["anomaly" := 0.15%float]> component_scores))
    | None => mret (<["anomaly" := 0.15%float]> component_scores)
    end;
  (* Rule-based scoring (simple implementation) *)
  rule_score ← _calculate_rule_based_score transaction_data transaction_context;
  mret (<["rule_based" := rule_score]> component_scores).

(** "Fallback to simple weighted average". *)
Definition fallback_overall_score (component_scores : gmap string float) : float :=
  (dict_get component_scores "behavioral" 0.5 * 0.35 +
   dict_get component_scores "graph" 0.1 * 0.30 +
   dict_get component_scores "anomaly" 0.15 * 0.25 +
   dict_get component_scores "rule_based" 0.1 * 0.10)%float.

(** The body of the handler's [try]. *)
Definition analyze_body (w : world) (request : TransactionAnalysisRequest.t)
    : outcome RiskScore.t :=
  let transaction_context := transaction_context_of request in
  component_scores ← collect_component_scores w request;
  (* Use risk engine for ensemble scoring and decision making *)
  '(overall_score, risk_factors) ←
    match risk_engine w with
    | Some assess_transaction_risk =>
        risk_assessment ←
          assess_transaction_risk (TransactionAnalysisRequest.transactionId request)
            component_scores transaction_context;
        mret (RiskAssessment.overall_risk_score risk_assessment,
              RiskAssessment.risk_factors risk_assessment)
    | None =>
        let overall_score := fallback_overall_score component_scores in
        risk_factors ← _extract_simple_risk_factors component_scores transaction_context;
        mret (overall_score, risk_factors)
    end;
  mret {| RiskScore.transactionId := TransactionAnalysisRequest.transactionId request;
          RiskScore.overallScore := round3 overall_score;
          RiskScore.behavioralScore := round3 (dict_get component_scores "behavioral" 0.5%float);
          RiskScore.graphScore := round3 (dict_get component_scores "graph" 0.1%float);
          RiskScore.anomalyScore := round3 (dict_get component_scores "anomaly" 0.15%float);
          RiskScore.riskFactors := risk_factors;
          RiskScore.timestamp := utcnow w |}.

Definition analyze_transaction (w : world) (request : TransactionAnalysisRequest.t)
    : outcome RiskScore.t :=
  try_except (analyze_body w request)
    (fun _ => Raise (HTTPException 500%Z "Analysis service error")).

(** ** The management endpoints *)

(** [d[key]]: a missing key raises [KeyError].  The handlers catch every
    [Exception] alike, so the [KeyError] is carried as a [ServiceError]. *)
Definition KeyError (key : string) : exn := ServiceError ("KeyError: " +:+ key).

Definition py_getitem (d : gmap string pyval) (key : string) : outcome pyval :=
  match d !! key with
  | Some v => Ret v
  | None => Raise (KeyError key)
  end.

(** The methods of the risk engine the management endpoints call.  The
    engine's own state is behind them: a call returns or raises. *)
Module RealTimeRiskEngine.
Record t : Type := {
  get_performance_metrics : outcome pyval;
  update_configuration : gmap string pyval -> outcome unit;
  add_decision_rule : gmap string pyval -> outcome unit;
  remove_decision_rule : string -> outcome unit
}.
End RealTimeRiskEngine.

(** [GET /api/v1/performance]; [risk_engine] is the global, [now] the clock. *)
Definition get_performance_metrics (risk_engine : option RealTimeRiskEngine.t)
    (now : string) : outcome (gmap string pyval) :=
  try_except
    (match risk_engine with
     | Some engine =>
         metrics ← RealTimeRiskEngine.get_performance_metrics engine;
         mret ({[ "service" := VStr "fraud-detection";
                  "timestamp" := VStr now;
                  "metrics" := metrics ]} : gmap string pyval)
     | None =>
         mret ({[ "service" := VStr "fraud-detection";
                  "timestamp" := VStr now;
                  "error" := VStr "Risk engine not available" ]} : gmap string pyval)
     end)
    (fun _ => Raise (HTTPException 500%Z "Could not retrieve metrics")).

(** [POST /api/v1/configuration]. *)
Definition update_configuration (risk_engine : option RealTimeRiskEngine.t)
    (config : gmap string pyval) : outcome (gmap string pyval) :=
  try_except
    (match risk_engine with
     | Some engine =>
         _ ← RealTimeRiskEngine.update_configuration engine config;
         mret ({[ "message" := VStr "Configuration updated successfully" ]}
                 : gmap string pyval)
     | None => Raise (HTTPException 503%Z "Risk engine not available")
     end)
    (fun _ => Raise (HTTPException 400%Z "Invalid configuration")).

(** [POST /api/v1/decision-rules]; [str_of] is Python's [str] as the f-string
    applies it to [rule_config['name']]. *)
Definition add_decision_rule (str_of : pyval -> string)
    (risk_engine : option RealTimeRiskEngine.t)
    (rule_config : gmap string pyval) : outcome (gmap string pyval) :=
  try_except
    (match risk_engine with
     | Some engine =>
         _ ← RealTimeRiskEngine.add_decision_rule engine rule_config;
         name ← py_getitem rule_config "name";
         mret ({[ "message" :=
                    VStr ("Decision rule '" +:+ str_of name +:+ "' added successfully") ]}
                 : gmap string pyval)
     | None => Raise (HTTPException 503%Z "Risk engine not available")
     end)
    (fun _ => Raise (HTTPException 400%Z "Invalid rule configuration")).

(** [DELETE /api/v1/decision-rules/{rule_name}]. *)
Definition remove_decision_rule (risk_engine : option RealTimeRiskEngine.t)
    (rule_name : string) : outcome (gmap string pyval) :=
  try_except
    (match risk_engine with
     | Some engine =>
         _ ← RealTimeRiskEngine.remove_decision_rule engine rule_name;
         mret ({[ "message" :=
                    VStr ("Decision rule '" +:+ rule_name +:+ "' removed successfully") ]}
                 : gmap string pyval)
     | None => Raise (HTTPException 503%Z "Risk engine not available")
     end)
    (fun _ => Raise (HTTPException 400%Z "Could not remove rule")).

(** ** Notions used in the statements *)

Definition is_number (v : pyval) : bool :=
  match py_num v with Some _ => true | None => false end.

(** [s1 <= s2] on floats, as a proposition. *)
Definition fle (s1 s2 : float) : Prop := (s1 <=? s2)%float = true.

(** Two runs compared: both return, the second at least as high, or both
    raise the same exception. *)
Definition score_le (r1 r2 : outcome float) : Prop :=
  match r1, r2 with
  | Ret s1, Ret s2 => fle s1 s2
  | Raise e1, Raise e2 => e1 = e2
  | _, _ => False
  end.

Definition K (z : Z) : xnum := XFin (inject_Z z).

(** The point system on the outcomes of its seven tests. *)
Definition score_flags (high mid micro fast brisk loc fresh : bool) : float :=
  let score := 0.0%float in
  let score := if high then (score + 0.3)%float
               else if mid then (score + 0.1)%float else score in
  let score := if micro then (score + 0.2)%float else score in
  let score := if fast then (score + 0.4)%float
               else if brisk then (score + 0.2)%float else score in
  let score := if loc then (score + 0.2)%float else score in
  let score := if fresh then (score + 0.3)%float else score in
  score.

(** The scorer on the values of its three numeric inputs and the truth value
    of the location flag. *)
Definition raw_score_num (a r u : xnum) (loc : bool) : float :=
  score_flags (xlt (K 10000) a) (xlt (K 1000) a) (xlt (K 0) a && xlt a (K 1))
    (xlt (K 10) r) (xlt (K 5) r) loc (xlt u (K 7) && xlt (K 1000) a).

(** [0 < a < 1], the micro-amount test. *)
Definition is_micro (a : pyval) : bool :=
  match py_num a with
  | Some x => xlt (K 0) x && xlt x (K 1)
  | None => false
  end.


(** A component's score: what its call returned, or the default when the
    service is missing or the call raised. *)
Definition component_or_default (call : option (outcome float)) (dflt : float) : float :=
  match call with
  | Some (Ret v) => v
  | Some (Raise _) => dflt
  | None => dflt
  end.

Definition behavioral_call (w : world) (request : TransactionAnalysisRequest.t)
    : option (outcome float) :=
  (fun analyze_user_behavior =>
     analyze_user_behavior (TransactionAnalysisRequest.fromWallet request)
       (transaction_data_of request)) <$> behavioral_service w.

Definition graph_call (w : world) (request : TransactionAnalysisRequest.t)
    : option (outcome float) :=
  (fun analyze_transaction_network =>
     analyze_transaction_network (TransactionAnalysisRequest.fromWallet request)
       (transaction_data_of request)) <$> graph_service w.

Definition anomaly_call (w : world) (request : TransactionAnalysisRequest.t)
    : option (outcome float) :=
  (fun predict_anomaly_score =>
     user_history ←
       _get_user_transaction_history w (TransactionAnalysisRequest.fromWallet request);
     '(anomaly_score, _) ← predict_anomaly_score (transaction_data_of request) user_history;
     mret anomaly_score) <$> anomaly_service w.

(** The component scores the handler holds once its four steps are done. *)
Definition scores_map (behavioral graph anomaly rule_based : float) : gmap string float :=
  <["rule_based" := rule_based]>
    (<["anomaly" := anomaly]> (<["graph" := graph]> (<["behavioral" := behavioral]> ∅))).

(** The risk engine's call on the collected scores returns, or there is no
    risk engine. *)
Definition engine_returns (w : world) (request : TransactionAnalysisRequest.t)
    (component_scores : gmap string float) : bool :=
  match risk_engine w with
  | Some assess_transaction_risk =>
      returns (assess_transaction_risk (TransactionAnalysisRequest.transactionId request)
                 component_scores (transaction_context_of request))
  | None => true
  end.

(** ** Worlds and requests used as concrete inputs *)

(** A decoder that knows the empty list and rejects everything else. *)
Definition tiny_json_loads (text : string) : outcome pyval :=
  if String.eqb text "[]" then Ret (VList []) else Raise (ServiceError "JSONDecodeError").

(** No collaborator could be set up. *)
Definition offline : world :=
  {| redis_client := None; behavioral_service := None; graph_service := None;
     anomaly_service := None; risk_engine := None;
     json_loads := tiny_json_loads; utcnow := "2024-01-15T03:00:01" |}.

(** The large late-night transfer of the end-to-end example. *)
Definition late_night_request : TransactionAnalysisRequest.t :=
  {| TransactionAnalysisRequest.transactionId := "tx_002";
     TransactionAnalysisRequest.fromWallet := "wallet_user_456";
     TransactionAnalysisRequest.toWallet := "suspicious_wallet_999";
     TransactionAnalysisRequest.amount := 10000.0;
     TransactionAnalysisRequest.currency := "USD";
     TransactionAnalysisRequest.timestamp := "2024-01-15T03:00:00";
     TransactionAnalysisRequest.userContext := {[ "recent_transactions_1h" := VInt 0 ]} |}.


(** A cache whose connection times out, a behavioural model that fails, no
    graph service, an anomaly detector that answers 0.9, no risk engine. *)
Definition degraded : world :=
  {| redis_client := Some (fun _ => Raise (ServiceError "TimeoutError"));
     behavioral_service := Some (fun _ _ => Raise (ServiceError "model not loaded"));
     graph_service := None;
     anomaly_service := Some (fun _ _ => Ret (0.9%float, ∅));
     risk_engine := None;
     json_loads := tiny_json_loads; utcnow := "2024-01-15T03:00:01" |}.

(** The factor list on the outcomes of the eight tests of
    [_extract_simple_risk_factors]. *)
Definition factors_of (behav graph anom rule high small fast loc : bool) : list string :=
  (if behav then ["unusual_behavior"] else []) ++
  (if graph then ["suspicious_network"] else []) ++
  (if anom then ["transaction_anomaly"] else []) ++
  (if rule then ["rule_violation"] else []) ++
  (if high then ["high_amount"] else if small then ["micro_amount"] else []) ++
  (if fast then ["high_velocity"] else []) ++
  (if loc then ["new_location"] else []).

(** Every factor name, in the order the function appends them. *)
Definition all_factor_names : list string :=
  ["unusual_behavior"; "suspicious_network"; "transaction_anomaly"; "rule_violation";
   "high_amount"; "micro_amount"; "high_velocity"; "new_location"].

(** A risk engine that answers every assessment with the same verdict. *)
Definition flagging_engine
    (transaction_id : string) (component_scores : gmap string float)
    (transaction_context : gmap string pyval) : outcome RiskAssessment.t :=
  Ret {| RiskAssessment.overall_risk_score := 0.35;
         RiskAssessment.risk_factors := ["medium_risk"];
         RiskAssessment.recommended_action := "flag";
         RiskAssessment.confidence := 0.8;
         RiskAssessment.processing_time_ms := 45.0 |}.

(** No model service, a risk engine that flags. *)
Definition engine_only : world :=
  {| redis_client := None; behavioral_service := None; graph_service := None;
     anomaly_service := None; risk_engine := Some flagging_engine;
     json_loads := tiny_json_loads; utcnow := "2024-01-15T03:00:01" |}.

(** A large transfer in a burst of twelve. *)
Definition burst_request : TransactionAnalysisRequest.t :=
  {| TransactionAnalysisRequest.transactionId := "tx_004";
     TransactionAnalysisRequest.fromWallet := "wallet_user_456";
     TransactionAnalysisRequest.toWallet := "wallet_user_789";
     TransactionAnalysisRequest.amount := 20000.0;
     TransactionAnalysisRequest.currency := "USD";
     TransactionAnalysisRequest.timestamp := "2024-01-15T12:00:00";
     TransactionAnalysisRequest.userContext := {[ "recent_transactions_1h" := VInt 12 ]} |}.

(** A risk engine whose management calls all return. *)
Definition accepting_engine : RealTimeRiskEngine.t :=
  {| RealTimeRiskEngine.get_performance_metrics := Ret (VDict ∅);
     RealTimeRiskEngine.update_configuration := fun _ => Ret tt;
     RealTimeRiskEngine.add_decision_rule := fun _ => Ret tt;
     RealTimeRiskEngine.remove_decision_rule := fun _ => Ret tt |}.

(** A cache that holds the text of an empty list for every user. *)
Definition cached_empty : world :=
  {| redis_client := Some (fun _ => Ret (Some "[]"));
     behavioral_service := None; graph_service := None; anomaly_service := None;
     risk_engine := None; json_loads := tiny_json_loads;
     utcnow := "2024-01-15T03:00:01" |}.

(** A behavioural model that fails and a risk engine that fails, no other
    collaborator. *)
Definition failing_engine : world :=
  {| redis_client := None;
     behavioral_service := Some (fun _ _ => Raise (ServiceError "model not loaded"));
     graph_service := None; anomaly_service := None;
     risk_engine := Some (fun _ _ _ => Raise (ServiceError "engine not ready"));
     json_loads := tiny_json_loads; utcnow := "2024-01-15T03:00:01" |}.
(** * Properties *)

Example rule_score_micro :
  _calculate_rule_based_score {[ "amount" := VFloat 0.5 ]} ∅ = Ret 0.2%float.
Proof. vm_compute. reflexivity. Qed.

Lemma py_lt_num a b x y :
  py_num a = Some x -> py_num b = Some y -> py_lt a b = Ret (xlt x y).
Proof. intros Ha Hb. unfold py_lt. now rewrite Ha, Hb. Qed.

Lemma py_lt_not_num_l a b : py_num a = None -> py_lt a b = Raise TypeError.
Proof. intros Ha. unfold py_lt. now rewrite Ha. Qed.

Lemma py_lt_not_num_r a b : py_num b = None -> py_lt a b = Raise TypeError.
Proof. intros Hb. unfold py_lt. rewrite Hb. now destruct (py_num a). Qed.

Lemma py_num_int z : py_num (VInt z) = Some (K z).
Proof. reflexivity. Qed.

Lemma py_num_float f : py_num (VFloat f) = Some (float_val f).
Proof. reflexivity. Qed.

Lemma raw_score_numeric transaction_data transaction_context a r u :
  py_num (dict_get transaction_data "amount" (VFloat 0.0)) = Some a ->
  py_num (dict_get transaction_context "recent_transactions_1h" (VInt 0)) = Some r ->
  py_num (dict_get transaction_context "user_age_days" (VInt 365)) = Some u ->
  rule_based_raw_score transaction_data transaction_context
  = Ret (raw_score_num a r u
           (truthy (dict_get transaction_context "is_new_location" (VBool false)))).
Proof.
  intros Ha Hr Hu. unfold rule_based_raw_score, raw_score_num, score_flags, py_gt.
  rewrite !(py_lt_num _ _ _ _ (py_num_int _) Ha), !(py_lt_num _ _ _ _ Ha (py_num_int _)),
    !(py_lt_num _ _ _ _ (py_num_int _) Hr), !(py_lt_num _ _ _ _ Hu (py_num_int _)).
  unfold mbind, mret, outcome_bind, outcome_ret.
  destruct (xlt (K 10000) a), (xlt (K 1000) a), (xlt (K 0) a), (xlt a (K 1)),
    (xlt (K 10) r), (xlt (K 5) r), (xlt u (K 7)),
    (truthy (dict_get transaction_context "is_new_location" (VBool false)));
    reflexivity.
Qed.

Lemma raw_score_raises transaction_data transaction_context :
  is_number (dict_get transaction_data "amount" (VFloat 0.0))
  && is_number (dict_get transaction_context "recent_transactions_1h" (VInt 0))
  && is_number (dict_get transaction_context "user_age_days" (VInt 365)) = false ->
  rule_based_raw_score transaction_data transaction_context = Raise TypeError.
Proof.
  unfold is_number, rule_based_raw_score, py_gt.
  destruct (py_num (dict_get transaction_data "amount" (VFloat 0.0))) as [a|] eqn:Ha.
  2:{ intros _. rewrite !(py_lt_not_num_r _ _ Ha). reflexivity. }
  destruct (py_num (dict_get transaction_context "recent_transactions_1h" (VInt 0)))
    as [r|] eqn:Hr.
  2:{ intros _.
      rewrite !(py_lt_num _ _ _ _ (py_num_int _) Ha), !(py_lt_num _ _ _ _ Ha (py_num_int _)).
      rewrite !(py_lt_not_num_r _ _ Hr).
      unfold mbind, mret, outcome_bind, outcome_ret.
      destruct (xlt (K 10000) a), (xlt (K 1000) a), (xlt (K 0) a), (xlt a (K 1));
        reflexivity. }
  destruct (py_num (dict_get transaction_context "user_age_days" (VInt 365)))
    as [u|] eqn:Hu; [discriminate|]. intros _.
  rewrite !(py_lt_num _ _ _ _ (py_num_int _) Ha), !(py_lt_num _ _ _ _ Ha (py_num_int _)),
    !(py_lt_num _ _ _ _ (py_num_int _) Hr), !(py_lt_not_num_l _ _ Hu).
  unfold mbind, mret, outcome_bind, outcome_ret.
  destruct (xlt (K 10000) a), (xlt (K 1000) a), (xlt (K 0) a), (xlt a (K 1)),
    (xlt (K 10) r), (xlt (K 5) r),
    (truthy (dict_get transaction_context "is_new_location" (VBool false)));
    reflexivity.
Qed.

(** *** The order on values *)

Lemma xlt_trans x y z : xlt x y = true -> xlt y z = true -> xlt x z = true.
Proof.
  destruct x as [| |p|], y as [| |q|], z as [| |r|]; simpl; try congruence.
  destruct (Qcompare p q) eqn:Hpq; try discriminate.
  destruct (Qcompare q r) eqn:Hqr; try discriminate.
  intros _ _. apply Qlt_alt in Hpq, Hqr.
  now rewrite (proj1 (Qlt_alt p r) (Qlt_trans _ _ _ Hpq Hqr)).
Qed.

Lemma xlt_irrefl x : xlt x x = false.
Proof.
  destruct x as [| |p|]; simpl; try reflexivity.
  now rewrite (proj1 (Qeq_alt p p) (Qeq_refl p)).
Qed.

Lemma xlt_asym x y : xlt x y = true -> xlt y x = false.
Proof.
  intros H. destruct (xlt y x) eqn:E; [|reflexivity].
  now rewrite <- (xlt_irrefl x), (xlt_trans _ _ _ H E).
Qed.

(** Passing a threshold from below is kept by a larger value. *)
Lemma xlt_above k x y : xlt x y = true -> implb (xlt k x) (xlt k y) = true.
Proof.
  intros H. destruct (xlt k x) eqn:E; [|reflexivity].
  simpl. now apply xlt_trans with x.
Qed.

Lemma xlt_const_order k1 k2 x :
  xlt k1 k2 = true -> xlt k2 x = true -> xlt x k1 = false.
Proof.
  intros Hk Hx. apply xlt_asym. now apply xlt_trans with k2.
Qed.

Lemma py_lt_inv a b r :
  py_lt a b = Ret r -> exists x y, py_num a = Some x /\ py_num b = Some y /\ r = xlt x y.
Proof.
  unfold py_lt. destruct (py_num a) as [x|], (py_num b) as [y|]; try discriminate.
  intros [= <-]. now exists x, y.
Qed.

(** *** The point system, case by case *)


Lemma score_flags_nonneg high mid micro fast brisk loc fresh :
  fle 0 (score_flags high mid micro fast brisk loc fresh).
Proof.
  destruct high, mid, micro, fast, brisk, loc, fresh; vm_compute; reflexivity.
Qed.


(** Raising a test's outcome never lowers the clamped score. *)
Lemma score_flags_mono h1 m1 c1 f1 b1 l1 n1 h2 m2 c2 f2 b2 l2 n2 :
  implb h1 h2 = true -> implb m1 m2 = true -> implb c1 c2 = true ->
  implb f1 f2 = true -> implb b1 b2 = true -> implb l1 l2 = true ->
  implb n1 n2 = true ->
  fle (py_min 1.0 (score_flags h1 m1 c1 f1 b1 l1 n1))
      (py_min 1.0 (score_flags h2 m2 c2 f2 b2 l2 n2)).
Proof.
  destruct h1, h2; try discriminate; intros _;
  destruct m1, m2; try discriminate; intros _;
  destruct c1, c2; try discriminate; intros _;
  destruct f1, f2; try discriminate; intros _;
  destruct b1, b2; try discriminate; intros _;
  destruct l1, l2; try discriminate; intros _;
  destruct n1, n2; try discriminate; intros _;
  vm_compute; reflexivity.
Qed.

Lemma implb_same b : implb b b = true.
Proof. now destruct b. Qed.

Lemma implb_andb_l y m1 m2 : implb m1 m2 = true -> implb (y && m1) (y && m2) = true.
Proof. now destruct y, m1, m2. Qed.

Lemma dict_get_insert_eq {V} (d : gmap string V) k v dflt :
  dict_get (<[k := v]> d) k dflt = v.
Proof. unfold dict_get. now rewrite lookup_insert_eq. Qed.

Lemma dict_get_insert_ne {V} (d : gmap string V) k k' v dflt :
  k <> k' -> dict_get (<[k := v]> d) k' dflt = dict_get d k' dflt.
Proof. intros H. unfold dict_get. now rewrite lookup_insert_ne. Qed.

Lemma calc_numeric d c a r u :
  py_num (dict_get d "amount" (VFloat 0.0)) = Some a ->
  py_num (dict_get c "recent_transactions_1h" (VInt 0)) = Some r ->
  py_num (dict_get c "user_age_days" (VInt 365)) = Some u ->
  _calculate_rule_based_score d c
  = Ret (py_min 1.0 (raw_score_num a r u
           (truthy (dict_get c "is_new_location" (VBool false))))).
Proof.
  intros Ha Hr Hu. unfold _calculate_rule_based_score.
  now rewrite (raw_score_numeric d c a r u Ha Hr Hu).
Qed.

Lemma calc_raises d c :
  is_number (dict_get d "amount" (VFloat 0.0))
  && is_number (dict_get c "recent_transactions_1h" (VInt 0))
  && is_number (dict_get c "user_age_days" (VInt 365)) = false ->
  _calculate_rule_based_score d c = Raise TypeError.
Proof.
  intros H. unfold _calculate_rule_based_score.
  now rewrite (raw_score_raises d c H).
Qed.

(** The scorer returns exactly when the three values it compares are numbers. *)
Lemma calc_returns_iff d c :
  returns (_calculate_rule_based_score d c)
  = is_number (dict_get d "amount" (VFloat 0.0))
    && is_number (dict_get c "recent_transactions_1h" (VInt 0))
    && is_number (dict_get c "user_age_days" (VInt 365)).
Proof.
  destruct (is_number (dict_get d "amount" (VFloat 0.0))
            && is_number (dict_get c "recent_transactions_1h" (VInt 0))
            && is_number (dict_get c "user_age_days" (VInt 365))) eqn:E.
  - unfold is_number in E.
    destruct (py_num (dict_get d "amount" (VFloat 0.0))) as [a|] eqn:Ha; [|discriminate].
    destruct (py_num (dict_get c "recent_transactions_1h" (VInt 0))) as [r|] eqn:Hr;
      [|discriminate].
    destruct (py_num (dict_get c "user_age_days" (VInt 365))) as [u|] eqn:Hu; [|discriminate].
    now rewrite (calc_numeric d c a r u Ha Hr Hu).
  - now rewrite (calc_raises d c E).
Qed.

(** *** The handler *)

Lemma history_returns w user_id :
  exists history, _get_user_transaction_history w user_id = Ret history.
Proof.
  unfold _get_user_transaction_history.
  destruct (redis_client w) as [client|]; [|eexists; reflexivity].
  destruct (client _) as [[payload|]|e]; try (eexists; reflexivity).
  simpl. destruct payload; simpl; [eexists; reflexivity|].
  destruct (json_loads w _); eexists; reflexivity.
Qed.

(** The four steps: three components, each its call's value or its default,
    then the rule-based score, the only step that can raise. *)
Lemma collect_component_scores_spec w request :
  collect_component_scores w request
  = (rule_score ← _calculate_rule_based_score (transaction_data_of request)
                    (transaction_context_of request);
     mret (scores_map (component_or_default (behavioral_call w request) 0.5)
             (component_or_default (graph_call w request) 0.1)
             (component_or_default (anomaly_call w request) 0.15)
             rule_score)).
Proof.
  unfold collect_component_scores, behavioral_call, graph_call, anomaly_call, scores_map.
  destruct (behavioral_service w) as [behave|]; simpl;
    [destruct (behave _ _); simpl|];
    (destruct (graph_service w) as [graph|]; simpl;
       [destruct (graph _ _); simpl|]);
    (destruct (anomaly_service w) as [predict|]; simpl;
       [destruct (history_returns w (TransactionAnalysisRequest.fromWallet request))
          as [h ->]; simpl; destruct (predict _ h) as [[s bd]|]; simpl|]);
    reflexivity.
Qed.

Lemma scores_map_lookup b g a r :
  scores_map b g a r !! "behavioral" = Some b /\
  scores_map b g a r !! "graph" = Some g /\
  scores_map b g a r !! "anomaly" = Some a /\
  scores_map b g a r !! "rule_based" = Some r.
Proof. unfold scores_map. repeat split; now simplify_map_eq. Qed.

Lemma scores_map_get b g a r d1 d2 d3 d4 :
  dict_get (scores_map b g a r) "behavioral" d1 = b /\
  dict_get (scores_map b g a r) "graph" d2 = g /\
  dict_get (scores_map b g a r) "anomaly" d3 = a /\
  dict_get (scores_map b g a r) "rule_based" d4 = r.
Proof.
  unfold dict_get. destruct (scores_map_lookup b g a r) as (-> & -> & -> & ->).
  now repeat split.
Qed.

Lemma context_amount request :
  dict_get (transaction_context_of request) "amount" (VFloat 0.0)
  = VFloat (TransactionAnalysisRequest.amount request).
Proof. unfold dict_get, transaction_context_of. now simplify_map_eq. Qed.

(** Once the scorer has returned, the fallback factor extraction returns too:
    it compares the same amount and velocity count. *)
Lemma extract_returns_after_score component_scores request :
  returns (_calculate_rule_based_score (transaction_data_of request)
             (transaction_context_of request)) = true ->
  returns (_extract_simple_risk_factors component_scores
             (transaction_context_of request)) = true.
Proof.
  rewrite calc_returns_iff. intros H.
  apply andb_prop in H as [H Hu]. apply andb_prop in H as [_ Hr].
  unfold _extract_simple_risk_factors, py_gt.
  rewrite context_amount.
  unfold is_number in Hr.
  destruct (py_num (dict_get (transaction_context_of request)
                      "recent_transactions_1h" (VInt 0))) as [r|] eqn:Er; [|discriminate].
  rewrite !(py_lt_num _ _ _ _ (py_num_int _) (py_num_float _)),
    !(py_lt_num _ _ _ _ (py_num_float _) (py_num_int _)),
    !(py_lt_num _ _ _ _ (py_num_int _) Er).
  unfold mbind, mret, outcome_bind, outcome_ret.
  destruct (xlt (K 10000) _); reflexivity.
Qed.

Lemma SFmul_comm prec emax x y : SFmul prec emax x y = SFmul prec emax y x.
Proof.
  destruct x as [sx|sx| |sx mx ex], y as [sy|sy| |sy my ey]; simpl;
    rewrite ?(Bool.xorb_comm sx sy); try reflexivity.
  now rewrite (Pos.mul_comm mx my), (Z.add_comm ex ey).
Qed.

(** Float multiplication commutes. *)
Lemma fmul_comm (x y : float) : (x * y)%float = (y * x)%float.
Proof. apply Prim2SF_inj. rewrite !mul_spec. apply SFmul_comm. Qed.

(** The handler once the scores are collected, with no risk engine. *)
Lemma analyze_fallback w request b g a r factors :
  risk_engine w = None ->
  collect_component_scores w request = Ret (scores_map b g a r) ->
  _extract_simple_risk_factors (scores_map b g a r) (transaction_context_of request)
    = Ret factors ->
  analyze_transaction w request
  = Ret {| RiskScore.transactionId := TransactionAnalysisRequest.transactionId request;
           RiskScore.overallScore := round3 (b * 0.35 + g * 0.30 + a * 0.25 + r * 0.10)%float;
           RiskScore.behavioralScore := round3 b;
           RiskScore.graphScore := round3 g;
           RiskScore.anomalyScore := round3 a;
           RiskScore.riskFactors := factors;
           RiskScore.timestamp := utcnow w |}.
Proof.
  intros Hengine Hcollect Hfactors.
  unfold analyze_transaction, analyze_body, fallback_overall_score.
  rewrite Hcollect, Hengine. simpl. rewrite Hfactors. simpl.
  destruct (scores_map_get b g a r 0.5 0.1 0.15 0.1) as (-> & -> & -> & ->).
  reflexivity.
Qed.

Lemma returns_true {A} (m : outcome A) : returns m = true -> exists a, m = Ret a.
Proof. destruct m; [eauto | discriminate]. Qed.

(** * The rule-based scorer *)




(** C8 (noninterference): the score is determined by the four values the
    scorer reads, [amount] from the transaction and [recent_transactions_1h],
    [is_new_location] and [user_age_days] from the context, each with its
    default when the key is missing.  Two input pairs that agree on them get
    the same result, whatever their other fields hold. *)
Theorem rule_based_score_reads_four_values
    (data1 context1 data2 context2 : gmap string pyval) :
  dict_get data1 "amount" (VFloat 0.0) = dict_get data2 "amount" (VFloat 0.0) ->
  dict_get context1 "recent_transactions_1h" (VInt 0)
    = dict_get context2 "recent_transactions_1h" (VInt 0) ->
  dict_get context1 "is_new_location" (VBool false)
    = dict_get context2 "is_new_location" (VBool false) ->
  dict_get context1 "user_age_days" (VInt 365)
    = dict_get context2 "user_age_days" (VInt 365) ->
  _calculate_rule_based_score data1 context1 = _calculate_rule_based_score data2 context2.
Proof.
  intros Ha Hr Hl Hu. unfold _calculate_rule_based_score, rule_based_raw_score.
  rewrite Ha, Hr, Hl, Hu. reflexivity.
Qed.

(** C8 on two transfers that differ in sender, recipient, currency,
    timestamp and metadata. *)
Lemma rule_based_score_reads_four_values_witness :
  let data1 : gmap string pyval :=
    {[ "amount" := VFloat 5000.0; "fromWallet" := VStr "alice"; "toWallet" := VStr "bob";
       "currency" := VStr "USD"; "timestamp" := VStr "2024-01-01T03:00:00" ]} in
  let context1 : gmap string pyval :=
    {[ "recent_transactions_1h" := VInt 7; "user_id" := VStr "alice";
       "currency" := VStr "USD" ]} in
  let data2 : gmap string pyval :=
    {[ "amount" := VFloat 5000.0; "fromWallet" := VStr "carol"; "toWallet" := VStr "dave";
       "currency" := VStr "EUR"; "metadata" := VDict {[ "note" := VStr "rent" ]} ]} in
  let context2 : gmap string pyval :=
    {[ "recent_transactions_1h" := VInt 7; "user_id" := VStr "carol";
       "is_new_location" := VBool false; "user_age_days" := VInt 365 ]} in
  data1 <> data2 /\
  _calculate_rule_based_score data1 context1 = _calculate_rule_based_score data2 context2.
Proof.
  intros data1 context1 data2 context2. split.
  - intros H. apply (f_equal (fun d => d !! "metadata")) in H. vm_compute in H. discriminate.
  - apply (rule_based_score_reads_four_values data1 context1 data2 context2);
      vm_compute; reflexivity.
Defined.

(** C9 (zero-amount boundary): at amount exactly 0 with nothing else in the
    context, the scorer adds no micro-amount increment (its test is
    [0 < amount < 1]) and returns 0.0, while [_extract_simple_risk_factors],
    whose test is [amount < 1], lists ["micro_amount"], whatever the component
    scores are. *)
Theorem zero_amount_scored_zero_yet_micro_factor (component_scores : gmap string float) :
  let transaction_data : gmap string pyval := {[ "amount" := VFloat 0.0 ]} in
  let transaction_context : gmap string pyval := {[ "amount" := VFloat 0.0 ]} in
  is_micro (VFloat 0.0) = false /\
  _calculate_rule_based_score transaction_data transaction_context = Ret 0.0%float /\
  exists factors,
    _extract_simple_risk_factors component_scores transaction_context = Ret factors /\
    "micro_amount" ∈ factors.
Proof.
  intros transaction_data transaction_context.
  split; [vm_compute; reflexivity|]. split; [vm_compute; reflexivity|].
  unfold _extract_simple_risk_factors.
  replace (py_gt (dict_get transaction_context "amount" (VFloat 0.0)) (VInt 10000))
    with (Ret false : outcome bool) by (vm_compute; reflexivity).
  replace (py_lt (dict_get transaction_context "amount" (VFloat 0.0)) (VInt 1))
    with (Ret true : outcome bool) by (vm_compute; reflexivity).
  replace (py_gt (dict_get transaction_context "recent_transactions_1h" (VInt 0)) (VInt 10))
    with (Ret false : outcome bool) by (vm_compute; reflexivity).
  replace (truthy (dict_get transaction_context "is_new_location" (VBool false)))
    with false by (vm_compute; reflexivity).
  eexists. split; [reflexivity|]. set_solver.
Qed.

(** C10 (saturation): when the amount exceeds 10000, more than 10
    transactions were seen in the last hour, the location is new and the
    user is younger than 7 days, the increments add up to more than 1.0 and
    the scorer returns exactly 1.0. *)
Theorem rule_based_score_saturates (transaction_data transaction_context : gmap string pyval) :
  py_gt (dict_get transaction_data "amount" (VFloat 0.0)) (VInt 10000) = Ret true ->
  py_gt (dict_get transaction_context "recent_transactions_1h" (VInt 0)) (VInt 10)
    = Ret true ->
  truthy (dict_get transaction_context "is_new_location" (VBool false)) = true ->
  py_lt (dict_get transaction_context "user_age_days" (VInt 365)) (VInt 7) = Ret true ->
  exists raw,
    rule_based_raw_score transaction_data transaction_context = Ret raw /\
    (1.0 <? raw)%float = true /\
    _calculate_rule_based_score transaction_data transaction_context = Ret 1.0%float.
Proof.
  intros Ha Hr Hl Hu.
  apply py_lt_inv in Ha as (ka & a & Hka & Ea & Ha).
  apply py_lt_inv in Hr as (kr & r & Hkr & Er & Hr).
  apply py_lt_inv in Hu as (u & ku & Eu & Hku & Hu).
  rewrite py_num_int in Hka, Hkr, Hku.
  injection Hka as <-. injection Hkr as <-. injection Hku as <-.
  symmetry in Ha, Hr, Hu.
  assert (Hmid : xlt (K 1000) a = true)
    by (apply xlt_trans with (K 10000); [reflexivity | exact Ha]).
  assert (Hbig : xlt a (K 1) = false)
    by (apply xlt_const_order with (K 10000); [reflexivity | exact Ha]).
  rewrite (calc_numeric _ _ a r u Ea Er Eu), (raw_score_numeric _ _ a r u Ea Er Eu).
  unfold raw_score_num. rewrite Ha, Hmid, Hbig, Hr, Hl, Hu, andb_false_r.
  eexists. split; [reflexivity|].
  destruct (xlt (K 5) r); vm_compute; split; reflexivity.
Qed.

(** C10 at amount 25000.0, 12 recent transactions, a new location and a
    two-day-old account. *)
Lemma rule_based_score_saturates_witness :
  _calculate_rule_based_score {[ "amount" := VFloat 25000.0 ]}
    {[ "recent_transactions_1h" := VInt 12; "is_new_location" := VBool true;
       "user_age_days" := VInt 2 ]} = Ret 1.0%float.
Proof.
  pose proof (rule_based_score_saturates {[ "amount" := VFloat 25000.0 ]}
                {[ "recent_transactions_1h" := VInt 12; "is_new_location" := VBool true;
                   "user_age_days" := VInt 2 ]}) as H.
  destruct H as (raw & _ & _ & Hs); [vm_compute; reflexivity ..|].
  exact Hs.
Defined.

(** C1, as stated, fails on the amount: raising it from 0.5 to 2.0, with
    nothing else in either input, lowers the score from 0.2 to 0.0, because
    the micro-amount increment is lost. *)
Lemma rule_based_score_drops_leaving_micro_band :
  py_lt (VFloat 0.5) (VFloat 2.0) = Ret true /\
  _calculate_rule_based_score (<["amount" := VFloat 0.5]> ∅) ∅ = Ret 0.2%float /\
  _calculate_rule_based_score (<["amount" := VFloat 2.0]> ∅) ∅ = Ret 0.0%float /\
  (0.2 <=? 0.0)%float = false /\
  ~ score_le (_calculate_rule_based_score (<["amount" := VFloat 0.5]> ∅) ∅)
             (_calculate_rule_based_score (<["amount" := VFloat 2.0]> ∅) ∅).
Proof.
  repeat split; try (vm_compute; reflexivity).
  vm_compute. discriminate.
Qed.

(** C1 (monotonicity, amended): with every other field held fixed, a larger
    [recent_transactions_1h] never lowers the score, and a larger amount
    never lowers it provided the smaller amount is not a micro-amount (not
    strictly between 0 and 1).  When a run raises, so does the other, with
    the same exception. *)
Theorem rule_based_score_monotone (transaction_data transaction_context : gmap string pyval) :
  (forall v1 v2 : pyval,
      py_lt v1 v2 = Ret true ->
      score_le
        (_calculate_rule_based_score transaction_data
           (<["recent_transactions_1h" := v1]> transaction_context))
        (_calculate_rule_based_score transaction_data
           (<["recent_transactions_1h" := v2]> transaction_context)))
  /\
  (forall a1 a2 : pyval,
      py_lt a1 a2 = Ret true -> is_micro a1 = false ->
      score_le
        (_calculate_rule_based_score (<["amount" := a1]> transaction_data)
           transaction_context)
        (_calculate_rule_based_score (<["amount" := a2]> transaction_data)
           transaction_context)).
Proof.
  split.
  - intros v1 v2 Hlt.
    apply py_lt_inv in Hlt as (r1 & r2 & E1 & E2 & Hlt). symmetry in Hlt.
    set (c1 := <["recent_transactions_1h" := v1]> transaction_context).
    set (c2 := <["recent_transactions_1h" := v2]> transaction_context).
    assert (Hr1 : dict_get c1 "recent_transactions_1h" (VInt 0) = v1)
      by apply dict_get_insert_eq.
    assert (Hr2 : dict_get c2 "recent_transactions_1h" (VInt 0) = v2)
      by apply dict_get_insert_eq.
    assert (Hl : dict_get c1 "is_new_location" (VBool false)
                 = dict_get c2 "is_new_location" (VBool false))
      by (unfold c1, c2; now rewrite !dict_get_insert_ne).
    assert (Hu : dict_get c1 "user_age_days" (VInt 365)
                 = dict_get c2 "user_age_days" (VInt 365))
      by (unfold c1, c2; now rewrite !dict_get_insert_ne).
    destruct (py_num (dict_get transaction_data "amount" (VFloat 0.0))) as [a|] eqn:Ea.
    2:{ rewrite !calc_raises; [reflexivity | |]; unfold is_number; now rewrite Ea. }
    destruct (py_num (dict_get c2 "user_age_days" (VInt 365))) as [u|] eqn:Eu.
    2:{ rewrite !calc_raises; [reflexivity | |]; unfold is_number;
          rewrite ?Hu, Eu; now rewrite !andb_false_r. }
    rewrite (calc_numeric _ c1 a r1 u), (calc_numeric _ c2 a r2 u);
      try assumption; try congruence.
    simpl. rewrite Hl. unfold raw_score_num.
    apply score_flags_mono; try apply implb_same; now apply xlt_above.
  - intros a1 a2 Hlt Hmicro.
    apply py_lt_inv in Hlt as (x1 & x2 & E1 & E2 & Hlt). symmetry in Hlt.
    unfold is_micro in Hmicro. rewrite E1 in Hmicro.
    set (d1 := <["amount" := a1]> transaction_data).
    set (d2 := <["amount" := a2]> transaction_data).
    assert (Ha1 : dict_get d1 "amount" (VFloat 0.0) = a1) by apply dict_get_insert_eq.
    assert (Ha2 : dict_get d2 "amount" (VFloat 0.0) = a2) by apply dict_get_insert_eq.
    destruct (py_num (dict_get transaction_context "recent_transactions_1h" (VInt 0)))
      as [r|] eqn:Er.
    2:{ rewrite !calc_raises; [reflexivity | |]; unfold is_number;
          rewrite Er; now rewrite andb_false_r. }
    destruct (py_num (dict_get transaction_context "user_age_days" (VInt 365)))
      as [u|] eqn:Eu.
    2:{ rewrite !calc_raises; [reflexivity | |]; unfold is_number;
          rewrite Eu; now rewrite andb_false_r. }
    rewrite (calc_numeric d1 _ x1 r u), (calc_numeric d2 _ x2 r u);
      try assumption; try congruence.
    simpl. unfold raw_score_num. rewrite Hmicro.
    apply score_flags_mono; try apply implb_same; try reflexivity.
    + now apply xlt_above.
    + now apply xlt_above.
    + apply implb_andb_l. now apply xlt_above.
Qed.

(** C1 (amended) on concrete inputs: velocity 3 to 12, and amount 500.0 to
    20000.0 for a five-day-old account. *)
Lemma rule_based_score_monotone_witness :
  score_le
    (_calculate_rule_based_score {[ "amount" := VFloat 500.0 ]}
       (<["recent_transactions_1h" := VInt 3]> ∅))
    (_calculate_rule_based_score {[ "amount" := VFloat 500.0 ]}
       (<["recent_transactions_1h" := VInt 12]> ∅))
  /\
  score_le
    (_calculate_rule_based_score (<["amount" := VFloat 500.0]> ∅)
       {[ "user_age_days" := VInt 5 ]})
    (_calculate_rule_based_score (<["amount" := VFloat 20000.0]> ∅)
       {[ "user_age_days" := VInt 5 ]}).
Proof.
  split.
  - apply (proj1 (rule_based_score_monotone {[ "amount" := VFloat 500.0 ]} ∅)).
    vm_compute. reflexivity.
  - apply (proj2 (rule_based_score_monotone ∅ {[ "user_age_days" := VInt 5 ]}));
      vm_compute; reflexivity.
Defined.

(** * The cached history *)

(** C7 (a cache failure is a cache miss): whoever the user is,
    [_get_user_transaction_history] returns the empty list when there is no
    cache client, when the client's [get] raises, and when the cached payload
    does not parse; and in no case does it raise. *)
Theorem cache_failure_is_cache_miss (w : world) (user_id : string) :
  (redis_client w = None ->
   _get_user_transaction_history w user_id = Ret (VList [])) /\
  (forall client e,
      redis_client w = Some client ->
      client ("user_history:" +:+ user_id) = Raise e ->
      _get_user_transaction_history w user_id = Ret (VList [])) /\
  (forall client payload e,
      redis_client w = Some client ->
      client ("user_history:" +:+ user_id) = Ret (Some payload) ->
      json_loads w payload = Raise e ->
      _get_user_transaction_history w user_id = Ret (VList [])) /\
  returns (_get_user_transaction_history w user_id) = true.
Proof.
  repeat split.
  - intros H. unfold _get_user_transaction_history. now rewrite H.
  - intros client e H Hget. unfold _get_user_transaction_history. now rewrite H, Hget.
  - intros client payload e H Hget Hparse. unfold _get_user_transaction_history.
    rewrite H, Hget. simpl. destruct payload; [reflexivity|]. simpl. now rewrite Hparse.
  - destruct (history_returns w user_id) as [h ->]. reflexivity.
Qed.

(** C7 on a cache that times out and on a cache holding text that is not
    JSON. *)
Lemma cache_failure_is_cache_miss_witness :
  _get_user_transaction_history degraded "wallet_user_456" = Ret (VList []) /\
  _get_user_transaction_history
    {| redis_client := Some (fun _ => Ret (Some "{not json"));
       behavioral_service := None; graph_service := None; anomaly_service := None;
       risk_engine := None; json_loads := tiny_json_loads;
       utcnow := "2024-01-15T03:00:01" |} "wallet_user_456" = Ret (VList []).
Proof.
  split.
  - apply (proj1 (proj2 (cache_failure_is_cache_miss degraded "wallet_user_456"))
             (fun _ => Raise (ServiceError "TimeoutError")) (ServiceError "TimeoutError"));
      reflexivity.
  - eapply (proj1 (proj2 (proj2 (cache_failure_is_cache_miss _ "wallet_user_456"))));
      [reflexivity | reflexivity | vm_compute; reflexivity].
Defined.

(** * The handler *)




(** C3, as stated, fails in its last clause: for a request with numeric
    fields, the behavioural call raises and its score is defaulted to 0.5
    beside the other three, yet the risk engine's call raises too and the
    caller gets the HTTP 500 response, not a [RiskScore]. *)
Lemma defaulted_component_yet_no_result :
  behavioral_call failing_engine late_night_request
  = Some (Raise (ServiceError "model not loaded")) /\
  collect_component_scores failing_engine late_night_request
  = Ret (scores_map 0.5 0.1 0.15 0.1) /\
  analyze_transaction failing_engine late_night_request
  = Raise (HTTPException 500%Z "Analysis service error").
Proof. repeat split; vm_compute; reflexivity. Qed.

(** C3 (independent defaulting, amended): the collected scores hold, for each of
    behavioural, graph and anomaly, the value its call returned, or its own
    default (0.5, 0.1, 0.15) when its service is missing or its call raised,
    whatever happened to the other two; the rule-based score is the locally
    computed one, with no default.  Given that the rule-based step and the
    risk engine (if any) return, the handler returns a [RiskScore] carrying
    those three scores. *)
Theorem components_default_independently
    (w : world) (request : TransactionAnalysisRequest.t) :
  let behavioral := component_or_default (behavioral_call w request) 0.5 in
  let graph := component_or_default (graph_call w request) 0.1 in
  let anomaly := component_or_default (anomaly_call w request) 0.15 in
  collect_component_scores w request
  = (rule_score ← _calculate_rule_based_score (transaction_data_of request)
                    (transaction_context_of request);
     mret (scores_map behavioral graph anomaly rule_score)) /\
  forall rule_score,
    _calculate_rule_based_score (transaction_data_of request)
      (transaction_context_of request) = Ret rule_score ->
    engine_returns w request (scores_map behavioral graph anomaly rule_score) = true ->
    exists result,
      analyze_transaction w request = Ret result /\
      RiskScore.behavioralScore result = round3 behavioral /\
      RiskScore.graphScore result = round3 graph /\
      RiskScore.anomalyScore result = round3 anomaly.
Proof.
  intros behavioral graph anomaly. split; [apply collect_component_scores_spec|].
  intros rule_score Hrule Hengine.
  unfold analyze_transaction, analyze_body.
  rewrite collect_component_scores_spec. rewrite Hrule. simpl.
  fold behavioral graph anomaly.
  destruct (scores_map_get behavioral graph anomaly rule_score 0.5 0.1 0.15 0.1)
    as (Hb & Hg & Ha & _).
  unfold engine_returns in Hengine.
  destruct (risk_engine w) as [assess|]; simpl.
  - apply returns_true in Hengine as [assessment ->]. simpl.
    eexists. split; [reflexivity|]. simpl. now rewrite Hb, Hg, Ha.
  - destruct (returns_true _ (extract_returns_after_score
               (scores_map behavioral graph anomaly rule_score) request
               ltac:(now rewrite Hrule))) as [factors ->].
    simpl. eexists. split; [reflexivity|]. simpl. now rewrite Hb, Hg, Ha.
Qed.

(** C3 where the behavioural call raises, the graph service is missing and
    the anomaly detector answers 0.9. *)
Lemma components_default_independently_witness :
  exists result,
    analyze_transaction degraded late_night_request = Ret result /\
    RiskScore.behavioralScore result = round3 0.5 /\
    RiskScore.graphScore result = round3 0.1 /\
    RiskScore.anomalyScore result = round3 0.9.
Proof.
  apply (proj2 (components_default_independently degraded late_night_request) 0.1%float);
    vm_compute; reflexivity.
Defined.

(** C4 (default ensemble weighting): with no risk engine, whatever the four
    collected component scores are, the overall score the handler computes is
    0.35 * behavioral + 0.30 * graph + 0.25 * anomaly + 0.10 * rule_based in
    float arithmetic, summed left to right; the response carries it as
    [round(overall_score, 3)]. *)
Theorem fallback_overall_is_default_weighting
    (w : world) (request : TransactionAnalysisRequest.t)
    (component_scores : gmap string float) :
  risk_engine w = None ->
  collect_component_scores w request = Ret component_scores ->
  exists behavioral graph anomaly rule_based,
    (component_scores !! "behavioral" = Some behavioral /\
     component_scores !! "graph" = Some graph /\
     component_scores !! "anomaly" = Some anomaly /\
     component_scores !! "rule_based" = Some rule_based) /\
    fallback_overall_score component_scores
    = (0.35 * behavioral + 0.30 * graph + 0.25 * anomaly + 0.10 * rule_based)%float /\
    exists result,
      analyze_transaction w request = Ret result /\
      RiskScore.overallScore result
      = round3 (0.35 * behavioral + 0.30 * graph + 0.25 * anomaly + 0.10 * rule_based)%float.
Proof.
  intros Hengine Hcollect.
  pose proof (collect_component_scores_spec w request) as Hspec.
  rewrite Hcollect in Hspec.
  destruct (_calculate_rule_based_score (transaction_data_of request)
              (transaction_context_of request)) as [rule_score|] eqn:Hrule;
    [|discriminate].
  simpl in Hspec. injection Hspec as ->.
  set (b := component_or_default (behavioral_call w request) 0.5).
  set (g := component_or_default (graph_call w request) 0.1).
  set (a := component_or_default (anomaly_call w request) 0.15).
  fold b g a in Hcollect.
  exists b, g, a, rule_score. split; [apply scores_map_lookup|].
  rewrite (fmul_comm 0.35 b), (fmul_comm 0.30 g), (fmul_comm 0.25 a),
    (fmul_comm 0.10 rule_score).
  split.
  - unfold fallback_overall_score.
    destruct (scores_map_get b g a rule_score 0.5 0.1 0.15 0.1) as (-> & -> & -> & ->).
    reflexivity.
  - destruct (returns_true _ (extract_returns_after_score (scores_map b g a rule_score)
               request ltac:(now rewrite Hrule))) as [factors Hfactors].
    rewrite (analyze_fallback w request b g a rule_score factors Hengine Hcollect Hfactors).
    eexists. split; reflexivity.
Qed.

(** C4 on the scores 0.5, 0.1, 0.9 and 0.1. *)
Lemma fallback_overall_is_default_weighting_witness :
  exists result,
    analyze_transaction degraded late_night_request = Ret result /\
    RiskScore.overallScore result
    = round3 (0.35 * 0.5 + 0.30 * 0.1 + 0.25 * 0.9 + 0.10 * 0.1)%float.
Proof.
  pose proof (fallback_overall_is_default_weighting degraded late_night_request
                (scores_map 0.5 0.1 0.9 0.1)) as H.
  destruct H as (b & g & a & r & (Hb & Hg & Ha & Hr) & _ & result & Hres & Hover);
    [reflexivity | vm_compute; reflexivity |].
  rewrite (proj1 (scores_map_lookup _ _ _ _)) in Hb. injection Hb as <-.
  rewrite (proj1 (proj2 (scores_map_lookup _ _ _ _))) in Hg. injection Hg as <-.
  rewrite (proj1 (proj2 (proj2 (scores_map_lookup _ _ _ _)))) in Ha. injection Ha as <-.
  rewrite (proj2 (proj2 (proj2 (scores_map_lookup _ _ _ _)))) in Hr. injection Hr as <-.
  exists result. split; [exact Hres | exact Hover].
Defined.

(** * Further properties of the rule-based scorer *)

(** The scorer raises exactly when the amount, the velocity count or the
    user age it compares is not a number, and then it is a [TypeError]; the
    type of [is_new_location] never matters. *)
Theorem rule_based_score_raises_iff (transaction_data transaction_context : gmap string pyval) :
  (_calculate_rule_based_score transaction_data transaction_context = Raise TypeError <->
   is_number (dict_get transaction_data "amount" (VFloat 0.0))
   && is_number (dict_get transaction_context "recent_transactions_1h" (VInt 0))
   && is_number (dict_get transaction_context "user_age_days" (VInt 365)) = false) /\
  (forall e, _calculate_rule_based_score transaction_data transaction_context = Raise e ->
             e = TypeError).
Proof.
  pose proof (calc_returns_iff transaction_data transaction_context) as Hret.
  destruct (is_number (dict_get transaction_data "amount" (VFloat 0.0))
            && is_number (dict_get transaction_context "recent_transactions_1h" (VInt 0))
            && is_number (dict_get transaction_context "user_age_days" (VInt 365))) eqn:E.
  - destruct (_calculate_rule_based_score transaction_data transaction_context);
      [|discriminate].
    split; [split; discriminate | discriminate].
  - rewrite (calc_raises _ _ E). split; [split; reflexivity | congruence].
Qed.

(** The score is positive exactly when a heuristic fires: the amount is above
    1000 or a micro-amount, more than 5 transactions in the last hour, or a
    new location.  The user's age alone never makes a score positive. *)
Theorem rule_based_score_positive_iff
    (transaction_data transaction_context : gmap string pyval) (a r u : xnum) :
  py_num (dict_get transaction_data "amount" (VFloat 0.0)) = Some a ->
  py_num (dict_get transaction_context "recent_transactions_1h" (VInt 0)) = Some r ->
  py_num (dict_get transaction_context "user_age_days" (VInt 365)) = Some u ->
  exists score,
    _calculate_rule_based_score transaction_data transaction_context = Ret score /\
    (0 <? score)%float
    = xlt (K 1000) a || (xlt (K 0) a && xlt a (K 1)) || xlt (K 5) r
      || truthy (dict_get transaction_context "is_new_location" (VBool false)).
Proof.
  intros Ha Hr Hu. rewrite (calc_numeric _ _ a r u Ha Hr Hu).
  eexists. split; [reflexivity|]. unfold raw_score_num.
  assert (H1 : implb (xlt (K 10000) a) (xlt (K 1000) a) = true).
  { destruct (xlt (K 10000) a) eqn:E; [|reflexivity]. cbn [implb].
    apply xlt_trans with (K 10000); [reflexivity | exact E]. }
  assert (H2 : implb (xlt (K 10) r) (xlt (K 5) r) = true).
  { destruct (xlt (K 10) r) eqn:E; [|reflexivity]. cbn [implb].
    apply xlt_trans with (K 10); [reflexivity | exact E]. }
  destruct (xlt (K 10000) a), (xlt (K 1000) a); try discriminate;
    destruct (xlt (K 10) r), (xlt (K 5) r); try discriminate;
    destruct (xlt (K 0) a && xlt a (K 1)), (xlt u (K 7)),
      (truthy (dict_get transaction_context "is_new_location" (VBool false)));
    vm_compute; reflexivity.
Qed.

(** An amount of 25.0 from a one-day-old account, nothing else: score 0.0. *)
Lemma rule_based_score_positive_iff_witness :
  exists score,
    _calculate_rule_based_score {[ "amount" := VFloat 25.0 ]}
      {[ "user_age_days" := VInt 1 ]} = Ret score /\
    (0 <? score)%float = false.
Proof.
  destruct (rule_based_score_positive_iff {[ "amount" := VFloat 25.0 ]}
              {[ "user_age_days" := VInt 1 ]} (float_val 25.0) (K 0) (K 1))
    as (score & Hs & Hpos); [vm_compute; reflexivity ..|].
  exists score. split; [exact Hs|]. rewrite Hpos. vm_compute. reflexivity.
Defined.

(** A micro-amount (strictly between 0 and 1) excludes both amount tiers and
    the new-user increment, so its score stays below the clamp, whatever the
    velocity, location and user age. *)
Theorem micro_amount_never_saturates
    (transaction_data transaction_context : gmap string pyval) :
  is_micro (dict_get transaction_data "amount" (VFloat 0.0)) = true ->
  is_number (dict_get transaction_context "recent_transactions_1h" (VInt 0)) = true ->
  is_number (dict_get transaction_context "user_age_days" (VInt 365)) = true ->
  exists score,
    _calculate_rule_based_score transaction_data transaction_context = Ret score /\
    fle 0.2 score /\ (score <? 0.81)%float = true.
Proof.
  unfold is_micro, is_number. intros Ha Hr Hu.
  destruct (py_num (dict_get transaction_data "amount" (VFloat 0.0))) as [a|] eqn:Ea;
    [|discriminate].
  destruct (py_num (dict_get transaction_context "recent_transactions_1h" (VInt 0)))
    as [r|] eqn:Er; [|discriminate].
  destruct (py_num (dict_get transaction_context "user_age_days" (VInt 365)))
    as [u|] eqn:Eu; [|discriminate].
  rewrite (calc_numeric _ _ a r u Ea Er Eu). eexists. split; [reflexivity|].
  unfold raw_score_num. rewrite Ha.
  apply andb_prop in Ha as [_ Hlt1].
  assert (H1 : xlt (K 1000) a = false).
  { destruct (xlt (K 1000) a) eqn:E; [|reflexivity].
    now rewrite (xlt_const_order (K 1) (K 1000) a eq_refl E) in Hlt1. }
  assert (H2 : xlt (K 10000) a = false).
  { destruct (xlt (K 10000) a) eqn:E; [|reflexivity].
    now rewrite (xlt_const_order (K 1) (K 10000) a eq_refl E) in Hlt1. }
  rewrite H1, H2, andb_false_r.
  destruct (xlt (K 10) r), (xlt (K 5) r),
    (truthy (dict_get transaction_context "is_new_location" (VBool false)));
    vm_compute; split; reflexivity.
Qed.

(** A one-cent transfer at full velocity from a new location and a new
    account. *)
Lemma micro_amount_never_saturates_witness :
  exists score,
    _calculate_rule_based_score {[ "amount" := VFloat 0.01 ]}
      {[ "recent_transactions_1h" := VInt 50; "is_new_location" := VBool true;
         "user_age_days" := VInt 0 ]} = Ret score /\
    (score <? 0.81)%float = true.
Proof.
  destruct (micro_amount_never_saturates {[ "amount" := VFloat 0.01 ]}
              {[ "recent_transactions_1h" := VInt 50; "is_new_location" := VBool true;
                 "user_age_days" := VInt 0 ]})
    as (score & Hs & _ & Hlt); [vm_compute; reflexivity ..|].
  exists score. split; [exact Hs | exact Hlt].
Defined.

(** A NaN amount fires no amount heuristic: every comparison with it is
    false, so the transaction scores exactly as one of amount 1. *)
Theorem nan_amount_scores_as_benign (transaction_data transaction_context : gmap string pyval) :
  _calculate_rule_based_score (<["amount" := VFloat nan]> transaction_data)
    transaction_context
  = _calculate_rule_based_score (<["amount" := VInt 1]> transaction_data)
      transaction_context.
Proof.
  set (d1 := <["amount" := VFloat nan]> transaction_data).
  set (d2 := <["amount" := VInt 1]> transaction_data).
  assert (H1 : py_num (dict_get d1 "amount" (VFloat 0.0)) = Some XNaN)
    by (unfold d1; rewrite dict_get_insert_eq; vm_compute; reflexivity).
  assert (H2 : py_num (dict_get d2 "amount" (VFloat 0.0)) = Some (K 1))
    by (unfold d2; rewrite dict_get_insert_eq; reflexivity).
  destruct (py_num (dict_get transaction_context "recent_transactions_1h" (VInt 0)))
    as [r|] eqn:Er.
  2:{ rewrite !calc_raises; [reflexivity | |]; unfold is_number;
        rewrite Er; now rewrite andb_false_r. }
  destruct (py_num (dict_get transaction_context "user_age_days" (VInt 365)))
    as [u|] eqn:Eu.
  2:{ rewrite !calc_raises; [reflexivity | |]; unfold is_number;
        rewrite Eu; now rewrite andb_false_r. }
  rewrite (calc_numeric d1 _ XNaN r u H1 Er Eu), (calc_numeric d2 _ (K 1) r u H2 Er Eu).
  unfold raw_score_num.
  replace (xlt (K 10000) (K 1)) with false by reflexivity.
  replace (xlt (K 1000) (K 1)) with false by reflexivity.
  replace (xlt (K 1) (K 1)) with false by reflexivity.
  simpl. rewrite !andb_false_r. reflexivity.
Qed.

(** Only the truth value of [is_new_location] is read: any two values with
    the same truth value (for instance [True] and the string "false") give
    the same result, and no value of any type makes the scorer raise. *)
Theorem new_location_read_by_truth_value
    (transaction_data transaction_context : gmap string pyval) (v1 v2 : pyval) :
  truthy v1 = truthy v2 ->
  _calculate_rule_based_score transaction_data
    (<["is_new_location" := v1]> transaction_context)
  = _calculate_rule_based_score transaction_data
      (<["is_new_location" := v2]> transaction_context).
Proof.
  intros H. unfold _calculate_rule_based_score, rule_based_raw_score.
  rewrite !dict_get_insert_eq, !(dict_get_insert_ne _ "is_new_location") by done.
  now rewrite H.
Qed.

Lemma new_location_read_by_truth_value_witness :
  _calculate_rule_based_score {[ "amount" := VFloat 25.0 ]}
    (<["is_new_location" := VBool true]> ∅)
  = _calculate_rule_based_score {[ "amount" := VFloat 25.0 ]}
      (<["is_new_location" := VStr "false"]> ∅).
Proof.
  apply (new_location_read_by_truth_value {[ "amount" := VFloat 25.0 ]} ∅
           (VBool true) (VStr "false")).
  reflexivity.
Defined.

(** The user's age matters only above 1000: when the amount is not greater
    than 1000, any two numeric ages give the same score. *)
Theorem user_age_ignored_up_to_1000
    (transaction_data transaction_context : gmap string pyval) (u1 u2 : pyval) :
  py_gt (dict_get transaction_data "amount" (VFloat 0.0)) (VInt 1000) = Ret false ->
  is_number u1 = true -> is_number u2 = true ->
  _calculate_rule_based_score transaction_data
    (<["user_age_days" := u1]> transaction_context)
  = _calculate_rule_based_score transaction_data
      (<["user_age_days" := u2]> transaction_context).
Proof.
  intros Ha H1 H2. unfold is_number in H1, H2.
  destruct (py_num u1) as [x1|] eqn:E1; [|discriminate].
  destruct (py_num u2) as [x2|] eqn:E2; [|discriminate].
  apply py_lt_inv in Ha as (k & a & Hk & Ea & Ha).
  rewrite py_num_int in Hk. injection Hk as <-. symmetry in Ha.
  set (c1 := <["user_age_days" := u1]> transaction_context).
  set (c2 := <["user_age_days" := u2]> transaction_context).
  assert (Hr : dict_get c1 "recent_transactions_1h" (VInt 0)
               = dict_get c2 "recent_transactions_1h" (VInt 0))
    by (unfold c1, c2; now rewrite !dict_get_insert_ne).
  assert (Hl : dict_get c1 "is_new_location" (VBool false)
               = dict_get c2 "is_new_location" (VBool false))
    by (unfold c1, c2; now rewrite !dict_get_insert_ne).
  assert (Hu1 : py_num (dict_get c1 "user_age_days" (VInt 365)) = Some x1)
    by (unfold c1; now rewrite dict_get_insert_eq).
  assert (Hu2 : py_num (dict_get c2 "user_age_days" (VInt 365)) = Some x2)
    by (unfold c2; now rewrite dict_get_insert_eq).
  destruct (py_num (dict_get c2 "recent_transactions_1h" (VInt 0))) as [r|] eqn:Er.
  2:{ rewrite !calc_raises; [reflexivity | |]; unfold is_number;
        rewrite ?Hr, Er; now rewrite andb_false_r. }
  rewrite (calc_numeric _ c1 a r x1), (calc_numeric _ c2 a r x2);
    try assumption; try congruence.
  unfold raw_score_num. now rewrite Hl, Ha, !andb_false_r.
Qed.

Lemma user_age_ignored_up_to_1000_witness :
  _calculate_rule_based_score {[ "amount" := VFloat 1000.0 ]}
    (<["user_age_days" := VInt 0]> ∅)
  = _calculate_rule_based_score {[ "amount" := VFloat 1000.0 ]}
      (<["user_age_days" := VInt 4000]> ∅).
Proof.
  apply (user_age_ignored_up_to_1000 {[ "amount" := VFloat 1000.0 ]} ∅ (VInt 0) (VInt 4000));
    vm_compute; reflexivity.
Defined.

(** With everything else fixed, the score never drops when the location flag
    turns from false to true, nor when the user's age gets smaller. *)
Theorem rule_based_score_monotone_in_location_and_age
    (transaction_data transaction_context : gmap string pyval) :
  (forall v1 v2 : pyval,
      implb (truthy v1) (truthy v2) = true ->
      score_le
        (_calculate_rule_based_score transaction_data
           (<["is_new_location" := v1]> transaction_context))
        (_calculate_rule_based_score transaction_data
           (<["is_new_location" := v2]> transaction_context)))
  /\
  (forall older younger : pyval,
      py_lt younger older = Ret true ->
      score_le
        (_calculate_rule_based_score transaction_data
           (<["user_age_days" := older]> transaction_context))
        (_calculate_rule_based_score transaction_data
           (<["user_age_days" := younger]> transaction_context))).
Proof.
  split.
  - intros v1 v2 Himp.
    set (c1 := <["is_new_location" := v1]> transaction_context).
    set (c2 := <["is_new_location" := v2]> transaction_context).
    assert (Hr : dict_get c1 "recent_transactions_1h" (VInt 0)
                 = dict_get c2 "recent_transactions_1h" (VInt 0))
      by (unfold c1, c2; now rewrite !dict_get_insert_ne).
    assert (Hu : dict_get c1 "user_age_days" (VInt 365)
                 = dict_get c2 "user_age_days" (VInt 365))
      by (unfold c1, c2; now rewrite !dict_get_insert_ne).
    assert (Hl1 : dict_get c1 "is_new_location" (VBool false) = v1)
      by apply dict_get_insert_eq.
    assert (Hl2 : dict_get c2 "is_new_location" (VBool false) = v2)
      by apply dict_get_insert_eq.
    destruct (py_num (dict_get transaction_data "amount" (VFloat 0.0))) as [a|] eqn:Ea.
    2:{ rewrite !calc_raises; [reflexivity | |]; unfold is_number; now rewrite Ea. }
    destruct (py_num (dict_get c2 "recent_transactions_1h" (VInt 0))) as [r|] eqn:Er.
    2:{ rewrite !calc_raises; [reflexivity | |]; unfold is_number;
          rewrite ?Hr, Er; now rewrite andb_false_r. }
    destruct (py_num (dict_get c2 "user_age_days" (VInt 365))) as [u|] eqn:Eu.
    2:{ rewrite !calc_raises; [reflexivity | |]; unfold is_number;
          rewrite ?Hu, Eu; now rewrite !andb_false_r. }
    rewrite (calc_numeric _ c1 a r u), (calc_numeric _ c2 a r u);
      try assumption; try congruence.
    simpl. rewrite Hl1, Hl2. unfold raw_score_num.
    apply score_flags_mono; try apply implb_same. exact Himp.
  - intros older younger Hlt.
    apply py_lt_inv in Hlt as (y & o & Ey & Eo & Hlt). symmetry in Hlt.
    set (c1 := <["user_age_days" := older]> transaction_context).
    set (c2 := <["user_age_days" := younger]> transaction_context).
    assert (Hr : dict_get c1 "recent_transactions_1h" (VInt 0)
                 = dict_get c2 "recent_transactions_1h" (VInt 0))
      by (unfold c1, c2; now rewrite !dict_get_insert_ne).
    assert (Hl : dict_get c1 "is_new_location" (VBool false)
                 = dict_get c2 "is_new_location" (VBool false))
      by (unfold c1, c2; now rewrite !dict_get_insert_ne).
    assert (Hu1 : py_num (dict_get c1 "user_age_days" (VInt 365)) = Some o)
      by (unfold c1; now rewrite dict_get_insert_eq).
    assert (Hu2 : py_num (dict_get c2 "user_age_days" (VInt 365)) = Some y)
      by (unfold c2; now rewrite dict_get_insert_eq).
    destruct (py_num (dict_get transaction_data "amount" (VFloat 0.0))) as [a|] eqn:Ea.
    2:{ rewrite !calc_raises; [reflexivity | |]; unfold is_number; now rewrite Ea. }
    destruct (py_num (dict_get c2 "recent_transactions_1h" (VInt 0))) as [r|] eqn:Er.
    2:{ rewrite !calc_raises; [reflexivity | |]; unfold is_number;
          rewrite ?Hr, Er; now rewrite andb_false_r. }
    rewrite (calc_numeric _ c1 a r o), (calc_numeric _ c2 a r y);
      try assumption; try congruence.
    simpl. rewrite Hl. unfold raw_score_num.
    apply score_flags_mono; try apply implb_same.
    destruct (xlt o (K 7)) eqn:E; [|reflexivity].
    rewrite (xlt_trans _ _ _ Hlt E). apply implb_same.
Qed.

Lemma rule_based_score_monotone_in_location_and_age_witness :
  score_le
    (_calculate_rule_based_score {[ "amount" := VFloat 5000.0 ]}
       (<["user_age_days" := VInt 30]> ∅))
    (_calculate_rule_based_score {[ "amount" := VFloat 5000.0 ]}
       (<["user_age_days" := VInt 3]> ∅)).
Proof.
  apply (proj2 (rule_based_score_monotone_in_location_and_age
                  {[ "amount" := VFloat 5000.0 ]} ∅)).
  vm_compute. reflexivity.
Defined.

(** * The fallback risk factors *)

Lemma extract_numeric component_scores transaction_context a r :
  py_num (dict_get transaction_context "amount" (VFloat 0.0)) = Some a ->
  py_num (dict_get transaction_context "recent_transactions_1h" (VInt 0)) = Some r ->
  _extract_simple_risk_factors component_scores transaction_context
  = Ret (factors_of (0.7 <? dict_get component_scores "behavioral" 0)%float
           (0.6 <? dict_get component_scores "graph" 0)%float
           (0.8 <? dict_get component_scores "anomaly" 0)%float
           (0.5 <? dict_get component_scores "rule_based" 0)%float
           (xlt (K 10000) a) (xlt a (K 1)) (xlt (K 10) r)
           (truthy (dict_get transaction_context "is_new_location" (VBool false)))).
Proof.
  intros Ha Hr. unfold _extract_simple_risk_factors, factors_of, py_gt.
  rewrite !(py_lt_num _ _ _ _ (py_num_int _) Ha), !(py_lt_num _ _ _ _ Ha (py_num_int _)),
    !(py_lt_num _ _ _ _ (py_num_int _) Hr).
  unfold mbind, mret, outcome_bind, outcome_ret.
  destruct (0.7 <? _)%float, (0.6 <? _)%float, (0.8 <? _)%float, (0.5 <? _)%float,
    (xlt (K 10000) a), (xlt a (K 1)), (xlt (K 10) r), (truthy _); reflexivity.
Qed.

Lemma extract_raises component_scores transaction_context :
  is_number (dict_get transaction_context "amount" (VFloat 0.0))
  && is_number (dict_get transaction_context "recent_transactions_1h" (VInt 0)) = false ->
  _extract_simple_risk_factors component_scores transaction_context = Raise TypeError.
Proof.
  unfold is_number, _extract_simple_risk_factors, py_gt.
  destruct (py_num (dict_get transaction_context "amount" (VFloat 0.0))) as [a|] eqn:Ha.
  2:{ intros _. rewrite !(py_lt_not_num_r _ _ Ha). reflexivity. }
  destruct (py_num (dict_get transaction_context "recent_transactions_1h" (VInt 0)))
    as [r|] eqn:Hr; [discriminate|]. intros _.
  rewrite !(py_lt_num _ _ _ _ (py_num_int _) Ha), !(py_lt_num _ _ _ _ Ha (py_num_int _)),
    !(py_lt_not_num_r _ _ Hr).
  unfold mbind, mret, outcome_bind, outcome_ret.
  destruct (xlt (K 10000) a), (xlt a (K 1)); reflexivity.
Qed.

(** What a returned factor list tells about the inputs. *)
Lemma extract_inv component_scores transaction_context factors :
  _extract_simple_risk_factors component_scores transaction_context = Ret factors ->
  exists a r,
    py_num (dict_get transaction_context "amount" (VFloat 0.0)) = Some a /\
    py_num (dict_get transaction_context "recent_transactions_1h" (VInt 0)) = Some r /\
    factors = factors_of (0.7 <? dict_get component_scores "behavioral" 0)%float
                (0.6 <? dict_get component_scores "graph" 0)%float
                (0.8 <? dict_get component_scores "anomaly" 0)%float
                (0.5 <? dict_get component_scores "rule_based" 0)%float
                (xlt (K 10000) a) (xlt a (K 1)) (xlt (K 10) r)
                (truthy (dict_get transaction_context "is_new_location" (VBool false))).
Proof.
  intros H.
  destruct (py_num (dict_get transaction_context "amount" (VFloat 0.0))) as [a|] eqn:Ha.
  2:{ rewrite extract_raises in H; [discriminate|]. unfold is_number. now rewrite Ha. }
  destruct (py_num (dict_get transaction_context "recent_transactions_1h" (VInt 0)))
    as [r|] eqn:Hr.
  2:{ rewrite extract_raises in H; [discriminate|]. unfold is_number.
      rewrite Hr. apply andb_false_r. }
  rewrite (extract_numeric _ _ a r Ha Hr) in H. injection H as <-.
  now exists a, r.
Qed.

Lemma factors_of_sublist behav graph anom rule high small fast loc :
  sublist (factors_of behav graph anom rule high small fast loc) all_factor_names.
Proof.
  unfold all_factor_names.
  destruct behav, graph, anom, rule, high, small, fast, loc; cbn;
    repeat first [apply sublist_nil | apply sublist_skip | apply sublist_cons].
Qed.

Lemma factors_of_member behav graph anom rule high small fast loc :
  let factors := factors_of behav graph anom rule high small fast loc in
  bool_decide ("unusual_behavior" ∈ factors) = behav /\
  bool_decide ("suspicious_network" ∈ factors) = graph /\
  bool_decide ("transaction_anomaly" ∈ factors) = anom /\
  bool_decide ("rule_violation" ∈ factors) = rule /\
  bool_decide ("high_amount" ∈ factors) = high /\
  bool_decide ("micro_amount" ∈ factors) = negb high && small /\
  bool_decide ("high_velocity" ∈ factors) = fast /\
  bool_decide ("new_location" ∈ factors) = loc.
Proof.
  destruct behav, graph, anom, rule, high, small, fast, loc;
    vm_compute; repeat split; reflexivity.
Qed.

Lemma member_iff (name : string) (factors : list string) (flag : bool) :
  bool_decide (name ∈ factors) = flag -> (name ∈ factors <-> flag = true).
Proof. intros <-. symmetry. apply bool_decide_eq_true. Qed.

(** The extraction raises [TypeError] exactly when the context's amount or
    velocity count is not a number; it reads neither the user's age nor the
    types of the component scores' keys. *)
Theorem risk_factors_return_iff
    (component_scores : gmap string float) (transaction_context : gmap string pyval) :
  returns (_extract_simple_risk_factors component_scores transaction_context)
  = is_number (dict_get transaction_context "amount" (VFloat 0.0))
    && is_number (dict_get transaction_context "recent_transactions_1h" (VInt 0)).
Proof.
  destruct (is_number (dict_get transaction_context "amount" (VFloat 0.0))
            && is_number (dict_get transaction_context "recent_transactions_1h" (VInt 0)))
    eqn:E.
  - unfold is_number in E.
    destruct (py_num (dict_get transaction_context "amount" (VFloat 0.0))) as [a|] eqn:Ha;
      [|discriminate].
    destruct (py_num (dict_get transaction_context "recent_transactions_1h" (VInt 0)))
      as [r|] eqn:Hr; [|discriminate].
    now rewrite (extract_numeric _ _ a r Ha Hr).
  - now rewrite (extract_raises _ _ E).
Qed.

(** A returned factor list picks names from the eight known ones, in the
    order they are tested and without repeats, and never holds both
    ["high_amount"] and ["micro_amount"]. *)
Theorem risk_factors_ordered_and_exclusive
    (component_scores : gmap string float) (transaction_context : gmap string pyval)
    (factors : list string) :
  _extract_simple_risk_factors component_scores transaction_context = Ret factors ->
  sublist factors all_factor_names /\ NoDup factors /\
  ~ ("high_amount" ∈ factors /\ "micro_amount" ∈ factors).
Proof.
  intros H. apply extract_inv in H as (a & r & _ & _ & ->).
  pose proof (factors_of_sublist (0.7 <? dict_get component_scores "behavioral" 0)%float
                (0.6 <? dict_get component_scores "graph" 0)%float
                (0.8 <? dict_get component_scores "anomaly" 0)%float
                (0.5 <? dict_get component_scores "rule_based" 0)%float
                (xlt (K 10000) a) (xlt a (K 1)) (xlt (K 10) r)
                (truthy (dict_get transaction_context "is_new_location" (VBool false))))
    as Hsub.
  split; [exact Hsub|]. split.
  - refine (sublist_NoDup _ _ _ Hsub). unfold all_factor_names.
    (* the eight names are pairwise distinct *)
    apply (bool_decide_unpack _). vm_compute. exact I.
  - intros [Hhigh Hmicro].
    destruct (factors_of_member (0.7 <? dict_get component_scores "behavioral" 0)%float
                (0.6 <? dict_get component_scores "graph" 0)%float
                (0.8 <? dict_get component_scores "anomaly" 0)%float
                (0.5 <? dict_get component_scores "rule_based" 0)%float
                (xlt (K 10000) a) (xlt a (K 1)) (xlt (K 10) r)
                (truthy (dict_get transaction_context "is_new_location" (VBool false))))
      as (_ & _ & _ & _ & H5 & H6 & _).
    apply member_iff in H5, H6. apply H5 in Hhigh. apply H6 in Hmicro.
    rewrite Hhigh in Hmicro. discriminate.
Qed.

Lemma risk_factors_ordered_and_exclusive_witness :
  NoDup ["rule_violation"; "micro_amount"; "new_location"].
Proof.
  apply (risk_factors_ordered_and_exclusive {[ "rule_based" := 0.6%float ]}
           {[ "amount" := VFloat 0.5; "is_new_location" := VBool true ]}
           ["rule_violation"; "micro_amount"; "new_location"]).
  vm_compute. reflexivity.
Defined.

(** Which factor is reported when: each model factor exactly when its
    component score exceeds its threshold (a missing score counts as 0),
    ["high_amount"] above 10000, ["micro_amount"] below 1 (zero and negative
    amounts included), ["high_velocity"] above 10 recent transactions,
    ["new_location"] on a truthy flag. *)
Theorem risk_factor_reported_iff
    (component_scores : gmap string float) (transaction_context : gmap string pyval)
    (factors : list string) :
  _extract_simple_risk_factors component_scores transaction_context = Ret factors ->
  let amount := dict_get transaction_context "amount" (VFloat 0.0) in
  ("unusual_behavior" ∈ factors
   <-> (0.7 <? dict_get component_scores "behavioral" 0)%float = true) /\
  ("suspicious_network" ∈ factors
   <-> (0.6 <? dict_get component_scores "graph" 0)%float = true) /\
  ("transaction_anomaly" ∈ factors
   <-> (0.8 <? dict_get component_scores "anomaly" 0)%float = true) /\
  ("rule_violation" ∈ factors
   <-> (0.5 <? dict_get component_scores "rule_based" 0)%float = true) /\
  ("high_amount" ∈ factors <-> py_gt amount (VInt 10000) = Ret true) /\
  ("micro_amount" ∈ factors <-> py_lt amount (VInt 1) = Ret true) /\
  ("high_velocity" ∈ factors
   <-> py_gt (dict_get transaction_context "recent_transactions_1h" (VInt 0)) (VInt 10)
       = Ret true) /\
  ("new_location" ∈ factors
   <-> truthy (dict_get transaction_context "is_new_location" (VBool false)) = true).
Proof.
  intros H amount. apply extract_inv in H as (a & r & Ha & Hr & ->).
  fold amount in Ha. unfold py_gt.
  rewrite !(py_lt_num _ _ _ _ (py_num_int _) Ha), !(py_lt_num _ _ _ _ Ha (py_num_int _)),
    !(py_lt_num _ _ _ _ (py_num_int _) Hr).
  destruct (factors_of_member (0.7 <? dict_get component_scores "behavioral" 0)%float
              (0.6 <? dict_get component_scores "graph" 0)%float
              (0.8 <? dict_get component_scores "anomaly" 0)%float
              (0.5 <? dict_get component_scores "rule_based" 0)%float
              (xlt (K 10000) a) (xlt a (K 1)) (xlt (K 10) r)
              (truthy (dict_get transaction_context "is_new_location" (VBool false))))
    as (H1 & H2 & H3 & H4 & H5 & H6 & H7 & H8).
  apply member_iff in H1, H2, H3, H4, H5, H6, H7, H8.
  repeat split; try tauto.
  - intros Hin. apply H5 in Hin. now rewrite Hin.
  - intros [= Hin]. now apply H5.
  - intros Hin. apply H6 in Hin. apply andb_prop in Hin as [_ ->]. reflexivity.
  - intros [= Hin]. apply H6. rewrite Hin, andb_true_r.
    destruct (xlt (K 10000) a) eqn:E; [|reflexivity].
    now rewrite (xlt_const_order (K 1) (K 10000) a eq_refl E) in Hin.
  - intros Hin. apply H7 in Hin. now rewrite Hin.
  - intros [= Hin]. now apply H7.
Qed.

Lemma risk_factor_reported_iff_witness :
  "micro_amount" ∈ ["micro_amount"; "new_location"] <->
  py_lt (dict_get ({[ "amount" := VFloat (-3.0); "is_new_location" := VInt 1 ]}
                     : gmap string pyval) "amount" (VFloat 0.0)) (VInt 1) = Ret true.
Proof.
  apply (risk_factor_reported_iff ∅
           {[ "amount" := VFloat (-3.0); "is_new_location" := VInt 1 ]}
           ["micro_amount"; "new_location"]).
  vm_compute. reflexivity.
Defined.

(** * Further properties of the cached history *)

(** The history is the decoded payload on a cache hit, whatever its shape (it
    is not checked to be a list); and anything other than the empty list can
    only come from such a hit. *)
Theorem history_is_decoded_hit_or_empty (w : world) (user_id : string) :
  (forall client payload v,
      redis_client w = Some client ->
      client ("user_history:" +:+ user_id) = Ret (Some payload) ->
      payload <> EmptyString ->
      json_loads w payload = Ret v ->
      _get_user_transaction_history w user_id = Ret v) /\
  (forall history,
      _get_user_transaction_history w user_id = Ret history ->
      history <> VList [] ->
      exists client payload,
        redis_client w = Some client /\
        client ("user_history:" +:+ user_id) = Ret (Some payload) /\
        payload <> EmptyString /\
        json_loads w payload = Ret history).
Proof.
  split.
  - intros client payload v Hc Hget Hne Hparse. unfold _get_user_transaction_history.
    rewrite Hc, Hget. simpl. destruct payload; [congruence|]. simpl. now rewrite Hparse.
  - intros history. unfold _get_user_transaction_history.
    destruct (redis_client w) as [client|]; simpl; [|intros [= <-] Hne; congruence].
    destruct (client _) as [[payload|]|e] eqn:Hget; simpl;
      try (intros [= <-] Hne; congruence).
    destruct payload as [|ch rest]; simpl; [intros [= <-] Hne; congruence|].
    destruct (json_loads w (String ch rest)) as [v|e] eqn:Hparse; simpl;
      [|intros [= <-] Hne; congruence].
    intros [= <-] _. exists client, (String ch rest). now repeat split.
Qed.

(** * Further properties of the handler *)

(** The collected scores always hold exactly the four keys, so the defaults
    of the later [.get] calls are never used. *)
Theorem collected_scores_have_four_keys
    (w : world) (request : TransactionAnalysisRequest.t)
    (component_scores : gmap string float) :
  collect_component_scores w request = Ret component_scores ->
  dom component_scores = ({[ "behavioral"; "graph"; "anomaly"; "rule_based" ]} : gset string).
Proof.
  rewrite collect_component_scores_spec.
  destruct (_calculate_rule_based_score _ _); [|discriminate].
  intros [= <-]. unfold scores_map. rewrite !dom_insert_L, dom_empty_L. set_solver.
Qed.

Lemma collected_scores_have_four_keys_witness :
  dom (scores_map 0.5 0.1 0.9 0.1)
  = ({[ "behavioral"; "graph"; "anomaly"; "rule_based" ]} : gset string).
Proof.
  apply (collected_scores_have_four_keys degraded late_night_request).
  vm_compute. reflexivity.
Defined.

(** When the risk engine answers, its overall score and its risk factors are
    what the response carries (the weighted average and the locally
    extracted factors are not used), beside the three collected component
    scores; the engine's recommended action and confidence are dropped. *)
Theorem risk_engine_result_is_forwarded
    (w : world) (request : TransactionAnalysisRequest.t)
    (assess_transaction_risk :
       string -> gmap string float -> gmap string pyval -> outcome RiskAssessment.t)
    (rule_score : float) (risk_assessment : RiskAssessment.t) :
  let behavioral := component_or_default (behavioral_call w request) 0.5 in
  let graph := component_or_default (graph_call w request) 0.1 in
  let anomaly := component_or_default (anomaly_call w request) 0.15 in
  risk_engine w = Some assess_transaction_risk ->
  _calculate_rule_based_score (transaction_data_of request) (transaction_context_of request)
    = Ret rule_score ->
  assess_transaction_risk (TransactionAnalysisRequest.transactionId request)
    (scores_map behavioral graph anomaly rule_score) (transaction_context_of request)
    = Ret risk_assessment ->
  analyze_transaction w request
  = Ret {| RiskScore.transactionId := TransactionAnalysisRequest.transactionId request;
           RiskScore.overallScore :=
             round3 (RiskAssessment.overall_risk_score risk_assessment);
           RiskScore.behavioralScore := round3 behavioral;
           RiskScore.graphScore := round3 graph;
           RiskScore.anomalyScore := round3 anomaly;
           RiskScore.riskFactors := RiskAssessment.risk_factors risk_assessment;
           RiskScore.timestamp := utcnow w |}.
Proof.
  intros behavioral graph anomaly Hengine Hrule Hassess.
  unfold analyze_transaction, analyze_body.
  rewrite collect_component_scores_spec, Hrule. simpl.
  fold behavioral graph anomaly. rewrite Hengine. simpl. rewrite Hassess. simpl.
  destruct (scores_map_get behavioral graph anomaly rule_score 0.5 0.1 0.15 0.1)
    as (-> & -> & -> & _).
  reflexivity.
Qed.

Lemma risk_engine_result_is_forwarded_witness :
  analyze_transaction engine_only burst_request
  = Ret {| RiskScore.transactionId := "tx_004";
           RiskScore.overallScore := round3 0.35;
           RiskScore.behavioralScore := round3 0.5;
           RiskScore.graphScore := round3 0.1;
           RiskScore.anomalyScore := round3 0.15;
           RiskScore.riskFactors := ["medium_risk"];
           RiskScore.timestamp := "2024-01-15T03:00:01" |}.
Proof.
  apply (risk_engine_result_is_forwarded engine_only burst_request flagging_engine 0.7%float
           {| RiskAssessment.overall_risk_score := 0.35;
              RiskAssessment.risk_factors := ["medium_risk"];
              RiskAssessment.recommended_action := "flag";
              RiskAssessment.confidence := 0.8;
              RiskAssessment.processing_time_ms := 45.0 |});
    vm_compute; reflexivity.
Defined.

Lemma data_amount request :
  dict_get (transaction_data_of request) "amount" (VFloat 0.0)
  = VFloat (TransactionAnalysisRequest.amount request).
Proof. unfold dict_get, transaction_data_of. now simplify_map_eq. Qed.

Lemma context_reads request :
  dict_get (transaction_context_of request) "recent_transactions_1h" (VInt 0)
  = dict_get (TransactionAnalysisRequest.userContext request)
      "recent_transactions_1h" (VInt 0) /\
  dict_get (transaction_context_of request) "is_new_location" (VBool false)
  = dict_get (TransactionAnalysisRequest.userContext request)
      "is_new_location" (VBool false) /\
  dict_get (transaction_context_of request) "user_age_days" (VInt 365)
  = dict_get (TransactionAnalysisRequest.userContext request) "user_age_days" (VInt 365).
Proof.
  unfold transaction_context_of.
  repeat split; unfold dict_get at 1; now simplify_map_eq.
Qed.

Lemma calc_ext d1 c1 d2 c2 :
  dict_get d1 "amount" (VFloat 0.0) = dict_get d2 "amount" (VFloat 0.0) ->
  dict_get c1 "recent_transactions_1h" (VInt 0)
    = dict_get c2 "recent_transactions_1h" (VInt 0) ->
  dict_get c1 "is_new_location" (VBool false) = dict_get c2 "is_new_location" (VBool false) ->
  dict_get c1 "user_age_days" (VInt 365) = dict_get c2 "user_age_days" (VInt 365) ->
  _calculate_rule_based_score d1 c1 = _calculate_rule_based_score d2 c2.
Proof.
  intros Ha Hr Hl Hu. unfold _calculate_rule_based_score, rule_based_raw_score.
  now rewrite Ha, Hr, Hl, Hu.
Qed.

Lemma extract_ext component_scores c1 c2 :
  dict_get c1 "amount" (VFloat 0.0) = dict_get c2 "amount" (VFloat 0.0) ->
  dict_get c1 "recent_transactions_1h" (VInt 0)
    = dict_get c2 "recent_transactions_1h" (VInt 0) ->
  dict_get c1 "is_new_location" (VBool false) = dict_get c2 "is_new_location" (VBool false) ->
  _extract_simple_risk_factors component_scores c1
  = _extract_simple_risk_factors component_scores c2.
Proof.
  intros Ha Hr Hl. unfold _extract_simple_risk_factors. now rewrite Ha, Hr, Hl.
Qed.

(** With no model service and no risk engine, the response is decided by the
    transaction id, the amount, the three context keys
    [recent_transactions_1h], [is_new_location] and [user_age_days], and the
    clock: wallets, currency, timestamp, every other context key and the
    cache have no influence. *)
Theorem unserved_response_reads_amount_and_three_keys
    (w1 w2 : world) (request1 request2 : TransactionAnalysisRequest.t) :
  behavioral_service w1 = None -> graph_service w1 = None ->
  anomaly_service w1 = None -> risk_engine w1 = None ->
  behavioral_service w2 = None -> graph_service w2 = None ->
  anomaly_service w2 = None -> risk_engine w2 = None ->
  utcnow w1 = utcnow w2 ->
  TransactionAnalysisRequest.transactionId request1
    = TransactionAnalysisRequest.transactionId request2 ->
  TransactionAnalysisRequest.amount request1 = TransactionAnalysisRequest.amount request2 ->
  dict_get (TransactionAnalysisRequest.userContext request1) "recent_transactions_1h" (VInt 0)
    = dict_get (TransactionAnalysisRequest.userContext request2)
        "recent_transactions_1h" (VInt 0) ->
  dict_get (TransactionAnalysisRequest.userContext request1) "is_new_location" (VBool false)
    = dict_get (TransactionAnalysisRequest.userContext request2)
        "is_new_location" (VBool false) ->
  dict_get (TransactionAnalysisRequest.userContext request1) "user_age_days" (VInt 365)
    = dict_get (TransactionAnalysisRequest.userContext request2) "user_age_days" (VInt 365) ->
  analyze_transaction w1 request1 = analyze_transaction w2 request2.
Proof.
  intros Hb1 Hg1 Ha1 He1 Hb2 Hg2 Ha2 He2 Hnow Hid Hamt Hr Hl Hu.
  destruct (context_reads request1) as (Hr1 & Hl1 & Hu1).
  destruct (context_reads request2) as (Hr2 & Hl2 & Hu2).
  assert (Hcalc : _calculate_rule_based_score (transaction_data_of request1)
                    (transaction_context_of request1)
                  = _calculate_rule_based_score (transaction_data_of request2)
                      (transaction_context_of request2)).
  { apply calc_ext; rewrite ?data_amount; congruence. }
  unfold analyze_transaction, analyze_body.
  rewrite !collect_component_scores_spec, Hcalc.
  unfold behavioral_call, graph_call, anomaly_call.
  rewrite Hb1, Hg1, Ha1, He1, Hb2, Hg2, Ha2, He2. simpl.
  destruct (_calculate_rule_based_score (transaction_data_of request2)
              (transaction_context_of request2)) as [rule_score|]; simpl; [|reflexivity].
  rewrite (extract_ext _ (transaction_context_of request1) (transaction_context_of request2))
    by (rewrite ?context_amount; congruence).
  destruct (_extract_simple_risk_factors _ (transaction_context_of request2)); simpl;
    [|reflexivity].
  now rewrite Hid, Hnow.
Qed.

(** Two requests that differ in both wallets, the currency, the timestamp and
    a context key the handler does not read. *)
Lemma unserved_response_reads_amount_and_three_keys_witness :
  analyze_transaction offline burst_request
  = analyze_transaction offline
      {| TransactionAnalysisRequest.transactionId := "tx_004";
         TransactionAnalysisRequest.fromWallet := "wallet_mallory";
         TransactionAnalysisRequest.toWallet := "wallet_offshore";
         TransactionAnalysisRequest.amount := 20000.0;
         TransactionAnalysisRequest.currency := "EUR";
         TransactionAnalysisRequest.timestamp := "2024-06-30T23:59:59";
         TransactionAnalysisRequest.userContext :=
           {[ "recent_transactions_1h" := VInt 12; "device" := VStr "unknown" ]} |}.
Proof.
  apply (unserved_response_reads_amount_and_three_keys offline offline);
    vm_compute; reflexivity.
Defined.

(** With no risk engine, a response that reports both ["high_amount"] and
    ["high_velocity"] also reports ["rule_violation"]: the two increments
    alone put the rule-based score at 0.7, above the 0.5 threshold. *)
Theorem high_amount_and_velocity_imply_rule_violation
    (w : world) (request : TransactionAnalysisRequest.t) (result : RiskScore.t) :
  risk_engine w = None ->
  analyze_transaction w request = Ret result ->
  "high_amount" ∈ RiskScore.riskFactors result ->
  "high_velocity" ∈ RiskScore.riskFactors result ->
  "rule_violation" ∈ RiskScore.riskFactors result.
Proof.
  intros Hengine Hres.
  unfold analyze_transaction, analyze_body in Hres.
  rewrite collect_component_scores_spec, Hengine in Hres.
  destruct (_calculate_rule_based_score (transaction_data_of request)
              (transaction_context_of request)) as [rule_score|] eqn:Hrule;
    [|discriminate].
  simpl in Hres.
  set (cs := scores_map _ _ _ rule_score) in Hres.
  destruct (_extract_simple_risk_factors cs (transaction_context_of request))
    as [factors|] eqn:Hfactors; [|discriminate].
  simpl in Hres. injection Hres as <-. simpl.
  apply extract_inv in Hfactors as (a & r & Ha & Hr & ->).
  destruct (factors_of_member (0.7 <? dict_get cs "behavioral" 0)%float
              (0.6 <? dict_get cs "graph" 0)%float
              (0.8 <? dict_get cs "anomaly" 0)%float
              (0.5 <? dict_get cs "rule_based" 0)%float
              (xlt (K 10000) a) (xlt a (K 1)) (xlt (K 10) r)
              (truthy (dict_get (transaction_context_of request) "is_new_location"
                         (VBool false))))
    as (_ & _ & _ & H4 & H5 & _ & H7 & _).
  apply member_iff in H4, H5, H7.
  intros Hhigh Hfast. apply H5 in Hhigh. apply H7 in Hfast. apply H4.
  unfold cs. rewrite (proj2 (proj2 (proj2 (scores_map_get _ _ _ rule_score 0 0 0 0)))).
  pose proof (calc_returns_iff (transaction_data_of request)
                (transaction_context_of request)) as Hret.
  rewrite Hrule in Hret. symmetry in Hret.
  apply andb_prop in Hret as [_ Hu]. unfold is_number in Hu.
  destruct (py_num (dict_get (transaction_context_of request) "user_age_days" (VInt 365)))
    as [u|] eqn:Eu; [|discriminate].
  rewrite context_amount in Ha.
  assert (Ha' : py_num (dict_get (transaction_data_of request) "amount" (VFloat 0.0))
                = Some a) by (now rewrite data_amount).
  rewrite (calc_numeric _ _ a r u Ha' Hr Eu) in Hrule. injection Hrule as <-.
  unfold raw_score_num.
  rewrite Hhigh, Hfast, (xlt_const_order (K 1) (K 10000) a eq_refl Hhigh), andb_false_r.
  destruct (xlt (K 1000) a), (xlt (K 5) r), (truthy _), (xlt u (K 7) && _);
    vm_compute; reflexivity.
Qed.

Lemma high_amount_and_velocity_imply_rule_violation_witness :
  "rule_violation" ∈ ["rule_violation"; "high_amount"; "high_velocity"].
Proof.
  apply (high_amount_and_velocity_imply_rule_violation offline burst_request
           {| RiskScore.transactionId := "tx_004";
              RiskScore.overallScore := round3 0.3125;
              RiskScore.behavioralScore := round3 0.5;
              RiskScore.graphScore := round3 0.1;
              RiskScore.anomalyScore := round3 0.15;
              RiskScore.riskFactors := ["rule_violation"; "high_amount"; "high_velocity"];
              RiskScore.timestamp := "2024-01-15T03:00:01" |});
    [reflexivity | vm_compute; reflexivity | set_solver | set_solver].
Defined.

(** *** Not-a-number component scores *)

Lemma SFcompare_refl s : s <> S754_nan -> SFcompare s s = Some Eq.
Proof.
  destruct s as [sg|sg| |sg m e]; simpl; try congruence; intros _.
  - now destruct sg.
  - destruct sg; rewrite Z.compare_refl, Pos.compare_cont_refl; reflexivity.
Qed.

Lemma is_nan_Prim2SF x : is_nan x = true <-> Prim2SF x = S754_nan.
Proof.
  unfold is_nan. rewrite FloatAxioms.eqb_spec. unfold SFeqb. split.
  - intros H. destruct (Prim2SF x) eqn:E; try reflexivity;
      rewrite SFcompare_refl in H by discriminate; discriminate.
  - intros ->. reflexivity.
Qed.

Lemma fmul_nan x y : is_nan x = true \/ is_nan y = true -> is_nan (x * y) = true.
Proof.
  rewrite !is_nan_Prim2SF, FloatAxioms.mul_spec. intros [-> | ->]; [reflexivity|].
  now destruct (Prim2SF x).
Qed.

Lemma fadd_nan x y : is_nan x = true \/ is_nan y = true -> is_nan (x + y) = true.
Proof.
  rewrite !is_nan_Prim2SF, FloatAxioms.add_spec. intros [-> | ->]; [reflexivity|].
  now destruct (Prim2SF x).
Qed.

Lemma ltb_nan_r x y : is_nan y = true -> (x <? y)%float = false.
Proof.
  rewrite is_nan_Prim2SF, FloatAxioms.ltb_spec. intros ->. unfold SFltb. now destruct (Prim2SF x).
Qed.

(** The fallback does not sanitise its inputs: a NaN in any of the four
    component scores makes the weighted average NaN, and a component whose
    score is NaN never gets its risk factor reported. *)
Theorem nan_component_poisons_fallback
    (component_scores : gmap string float) (transaction_context : gmap string pyval) :
  (is_nan (dict_get component_scores "behavioral" 0.5%float) = true \/
   is_nan (dict_get component_scores "graph" 0.1%float) = true \/
   is_nan (dict_get component_scores "anomaly" 0.15%float) = true \/
   is_nan (dict_get component_scores "rule_based" 0.1%float) = true ->
   is_nan (fallback_overall_score component_scores) = true) /\
  (forall factors,
      _extract_simple_risk_factors component_scores transaction_context = Ret factors ->
      (is_nan (dict_get component_scores "behavioral" 0%float) = true ->
       "unusual_behavior" ∉ factors) /\
      (is_nan (dict_get component_scores "graph" 0%float) = true ->
       "suspicious_network" ∉ factors) /\
      (is_nan (dict_get component_scores "anomaly" 0%float) = true ->
       "transaction_anomaly" ∉ factors) /\
      (is_nan (dict_get component_scores "rule_based" 0%float) = true ->
       "rule_violation" ∉ factors)).
Proof.
  split.
  - unfold fallback_overall_score. intros [H | [H | [H | H]]].
    + apply fadd_nan; left. apply fadd_nan; left. apply fadd_nan; left.
      apply fmul_nan; now left.
    + apply fadd_nan; left. apply fadd_nan; left. apply fadd_nan; right.
      apply fmul_nan; now left.
    + apply fadd_nan; left. apply fadd_nan; right. apply fmul_nan; now left.
    + apply fadd_nan; right. apply fmul_nan; now left.
  - intros factors H. apply extract_inv in H as (a & r & _ & _ & ->).
    destruct (factors_of_member (0.7 <? dict_get component_scores "behavioral" 0)%float
                (0.6 <? dict_get component_scores "graph" 0)%float
                (0.8 <? dict_get component_scores "anomaly" 0)%float
                (0.5 <? dict_get component_scores "rule_based" 0)%float
                (xlt (K 10000) a) (xlt a (K 1)) (xlt (K 10) r)
                (truthy (dict_get transaction_context "is_new_location" (VBool false))))
      as (H1 & H2 & H3 & H4 & _).
    apply member_iff in H1, H2, H3, H4.
    repeat split; intros Hnan Hin.
    + apply H1 in Hin. now rewrite (ltb_nan_r _ _ Hnan) in Hin.
    + apply H2 in Hin. now rewrite (ltb_nan_r _ _ Hnan) in Hin.
    + apply H3 in Hin. now rewrite (ltb_nan_r _ _ Hnan) in Hin.
    + apply H4 in Hin. now rewrite (ltb_nan_r _ _ Hnan) in Hin.
Qed.

Lemma nan_component_poisons_fallback_witness :
  is_nan (fallback_overall_score {[ "behavioral" := nan; "graph" := 0.9%float ]}) = true.
Proof.
  apply (proj1 (nan_component_poisons_fallback
                  {[ "behavioral" := nan; "graph" := 0.9%float ]} ∅)).
  left. vm_compute. reflexivity.
Defined.

(** * The management endpoints *)

(** Without a risk engine the three rule and configuration endpoints answer
    HTTP 400, not the 503 their [else] branch raises: the 503 is raised
    inside the [try] and replaced by the handler's own 400.  No other status
    ever leaves these endpoints. *)
Theorem missing_engine_is_reported_as_400
    (str_of : pyval -> string) (config rule_config : gmap string pyval) (rule_name : string) :
  (update_configuration None config = Raise (HTTPException 400%Z "Invalid configuration") /\
   add_decision_rule str_of None rule_config
   = Raise (HTTPException 400%Z "Invalid rule configuration") /\
   remove_decision_rule None rule_name = Raise (HTTPException 400%Z "Could not remove rule")) /\
  forall (risk_engine : option RealTimeRiskEngine.t) (e : exn),
    (update_configuration risk_engine config = Raise e ->
     e = HTTPException 400%Z "Invalid configuration") /\
    (add_decision_rule str_of risk_engine rule_config = Raise e ->
     e = HTTPException 400%Z "Invalid rule configuration") /\
    (remove_decision_rule risk_engine rule_name = Raise e ->
     e = HTTPException 400%Z "Could not remove rule").
Proof.
  split; [repeat split|].
  intros risk_engine e.
  unfold update_configuration, add_decision_rule, remove_decision_rule.
  repeat split.
  - destruct risk_engine as [engine|]; simpl;
      [destruct (RealTimeRiskEngine.update_configuration engine config)|];
      simpl; congruence.
  - destruct risk_engine as [engine|]; simpl;
      [destruct (RealTimeRiskEngine.add_decision_rule engine rule_config); simpl;
       [destruct (py_getitem rule_config "name"); simpl|]|];
      congruence.
  - destruct risk_engine as [engine|]; simpl;
      [destruct (RealTimeRiskEngine.remove_decision_rule engine rule_name)|];
      simpl; congruence.
Qed.

(** Adding a rule succeeds exactly when the engine accepts it and the
    configuration has a ["name"] (the reply quotes it).  A rule the engine
    accepted but that carries no name is answered with HTTP 400 although the
    engine's call had returned. *)
Theorem add_decision_rule_needs_name
    (str_of : pyval -> string) (engine : RealTimeRiskEngine.t)
    (rule_config : gmap string pyval) :
  (returns (add_decision_rule str_of (Some engine) rule_config)
   = returns (RealTimeRiskEngine.add_decision_rule engine rule_config)
     && bool_decide (is_Some (rule_config !! "name"))) /\
  (forall name,
      RealTimeRiskEngine.add_decision_rule engine rule_config = Ret tt ->
      rule_config !! "name" = Some name ->
      add_decision_rule str_of (Some engine) rule_config
      = Ret {[ "message" :=
                 VStr ("Decision rule '" +:+ str_of name +:+ "' added successfully") ]}) /\
  (RealTimeRiskEngine.add_decision_rule engine rule_config = Ret tt ->
   rule_config !! "name" = None ->
   add_decision_rule str_of (Some engine) rule_config
   = Raise (HTTPException 400%Z "Invalid rule configuration")).
Proof.
  unfold add_decision_rule, py_getitem. repeat split.
  - destruct (RealTimeRiskEngine.add_decision_rule engine rule_config) as [[]|]; simpl;
      [|reflexivity].
    destruct (rule_config !! "name") as [name|]; reflexivity.
  - intros name -> ->. reflexivity.
  - intros -> ->. reflexivity.
Qed.

(** The performance endpoint answers without a risk engine: the body then
    has an ["error"] entry and no ["metrics"]; with an engine it has the
    engine's metrics and no ["error"]; only a failing engine call gives HTTP
    500. *)
Theorem performance_metrics_body (now : string) :
  (exists body,
      get_performance_metrics None now = Ret body /\
      body !! "error" = Some (VStr "Risk engine not available") /\
      body !! "metrics" = None) /\
  (forall engine metrics,
      RealTimeRiskEngine.get_performance_metrics engine = Ret metrics ->
      exists body,
        get_performance_metrics (Some engine) now = Ret body /\
        body !! "metrics" = Some metrics /\ body !! "error" = None /\
        body !! "service" = Some (VStr "fraud-detection") /\
        body !! "timestamp" = Some (VStr now)) /\
  (forall engine e,
      RealTimeRiskEngine.get_performance_metrics engine = Raise e ->
      get_performance_metrics (Some engine) now
      = Raise (HTTPException 500%Z "Could not retrieve metrics")).
Proof.
  unfold get_performance_metrics. repeat split.
  - eexists. split; [reflexivity|]. split; now simplify_map_eq.
  - intros engine metrics ->. eexists. split; [reflexivity|].
    repeat split; now simplify_map_eq.
  - intros engine e ->. reflexivity.
Qed.

(** A rule without a name, accepted by the engine, answered with 400. *)
Lemma add_decision_rule_needs_name_witness :
  add_decision_rule (fun _ => "rule") (Some accepting_engine)
    {[ "condition" := VStr "risk_score > 0.8"; "action" := VStr "block" ]}
  = Raise (HTTPException 400%Z "Invalid rule configuration").
Proof.
  apply (proj2 (proj2 (add_decision_rule_needs_name (fun _ => "rule") accepting_engine
                         {[ "condition" := VStr "risk_score > 0.8";
                            "action" := VStr "block" ]})));
    vm_compute; reflexivity.
Defined.

(** A hit on the cached text of an empty list. *)
Lemma history_is_decoded_hit_or_empty_witness :
  _get_user_transaction_history cached_empty "wallet_user_456" = Ret (VList []).
Proof.
  apply (proj1 (history_is_decoded_hit_or_empty cached_empty "wallet_user_456")
           (fun _ => Ret (Some "[]")) "[]" (VList []));
    [reflexivity | reflexivity | discriminate | vm_compute; reflexivity].
Defined.
